(** * GPR-20 data processing: parsing of VNA responses and JSON storage

    A shallow embedding of the Python package [gpr20_data_processing]
    ([data_parsing.py], [data_storage.py], [data_processing.py]) and the
    properties of it that its specification states.

    Conventions of the embedding:
    - a Python [str] is a [string] (a sequence of one-byte characters);
    - a Python [float] is an IEEE-754 binary64 value, [spec_float];
    - a raised exception is the [Raise] branch of [result];
    - the operating-system calls of [data_storage.py] are the nodes of a
      [prog] tree, run against an explicit file-system state. *)

From Stdlib Require Import ZArith String Ascii List Lia.
From Stdlib Require Import Floats.SpecFloat.
From stdpp Require Import gmap strings list pretty.

Local Open Scope string_scope.
Local Open Scope list_scope.
Local Open Scope nat_scope.

(** ** Python exceptions and results *)

Inductive exn : Type :=
| IndexError
| ValueError
| FileExistsError
| FileNotFoundError
| NotADirectoryError
| IsADirectoryError.

Inductive result (A : Type) : Type :=
| Ok (a : A)
| Raise (e : exn).

Arguments Ok {A} a.
Arguments Raise {A} e.

#[global] Instance result_ret : MRet result := @Ok.
#[global] Instance result_bind : MBind result :=
  fun A B f r => match r with Ok a => f a | Raise e => Raise e end.

Definition is_raise {A} (r : result A) : bool :=
  match r with Ok _ => false | Raise _ => true end.

(** A Python [float]. *)
Abbreviation pyfloat := spec_float.

(** ** The Python built-ins used by the package *)

Module Py.

(** [range(n)] *)
Definition range (n : nat) : list nat := seq 0 n.

(** [l[i]] on a list, for [i >= 0]. *)
Definition getitem {A} (l : list A) (i : nat) : result A :=
  match l !! i with
  | Some x => Ok x
  | None => Raise IndexError
  end.

(** [s[n:]] on a string: never raises, empty when [n] is past the end. *)
Fixpoint slice_from (n : nat) (s : string) : string :=
  match n, s with
  | O, _ => s
  | S _, EmptyString => EmptyString
  | S n', String _ s' => slice_from n' s'
  end.

(** [s[0]] on a string. *)
Definition str_head (s : string) : result ascii :=
  match s with
  | EmptyString => Raise IndexError
  | String c _ => Ok c
  end.

Definition is_digit (c : ascii) : bool :=
  let n := nat_of_ascii c in (48 <=? n) && (n <=? 57).

(** [int(c)] for a one-character string [c]. *)
Definition int_of_char (c : ascii) : result nat :=
  if is_digit c then Ok (nat_of_ascii c - 48) else Raise ValueError.

(** [s.split(sep)] for a one-character separator. *)
Fixpoint split (sep : ascii) (s : string) : list string :=
  match s with
  | EmptyString => [EmptyString]
  | String c s' =>
      if Ascii.eqb c sep then EmptyString :: split sep s'
      else match split sep s' with
           | w :: ws => String c w :: ws
           | [] => [String c EmptyString]
           end
  end.

(** A list comprehension [[f(x) for x in xs]] whose body may raise. *)
Fixpoint comprehension {A B} (f : A -> result B) (xs : list A)
  : result (list B) :=
  match xs with
  | [] => Ok []
  | x :: xs' => y ← f x; ys ← comprehension f xs'; Ok (y :: ys)
  end.

End Py.

(** ** data_parsing.py *)

Module DataParsing.

(** Remove the header from the VNA response. *)
Definition __remove_header (vna_response : string) : result string :=
  let vna_response := Py.slice_from 1 vna_response in
  c ← Py.str_head vna_response;
  header_len ← Py.int_of_char c;
  let vna_response := Py.slice_from (header_len + 1) vna_response in
  Ok vna_response.

Section WithFloat.

(** The built-in [float()] on a string: [None] is its [ValueError]. *)
Variable float : string -> option pyfloat.

Definition py_float (s : string) : result pyfloat :=
  match float s with
  | Some v => Ok v
  | None => Raise ValueError
  end.

(** Create a list with the retrieved data from the VNA. *)
Definition __create_array (vna_response : string) : result (list pyfloat) :=
  let vna_response := Py.split "," vna_response in
  Py.comprehension
    (fun indx => s ← Py.getitem vna_response indx; py_float s)
    (Py.range (length vna_response - 1)).

(** The body of the [for indx in range(len(vna_trace))] loop of
    [parse_vna_trace], on the two accumulators. *)
Definition trace_step (vna_trace : list pyfloat) (indx : nat)
    (acc : list pyfloat * list pyfloat)
  : result (list pyfloat * list pyfloat) :=
  let '(vna_trace_re, vna_trace_im) := acc in
  vna_trace_re ←
    (if indx mod 2 =? 0
     then v ← Py.getitem vna_trace indx; Ok (vna_trace_re ++ [v])
     else Ok vna_trace_re);
  vna_trace_im ←
    (if negb (indx mod 2 =? 1)
     then v ← Py.getitem vna_trace indx; Ok (vna_trace_im ++ [v])
     else Ok vna_trace_im);
  Ok (vna_trace_re, vna_trace_im).

Fixpoint trace_loop (vna_trace : list pyfloat) (indices : list nat)
    (acc : list pyfloat * list pyfloat)
  : result (list pyfloat * list pyfloat) :=
  match indices with
  | [] => Ok acc
  | indx :: rest =>
      acc' ← trace_step vna_trace indx acc;
      trace_loop vna_trace rest acc'
  end.

(** Parse the VNA trace response from the VNA instrument. *)
Definition parse_vna_trace (vna_trace : string)
  : result (list pyfloat * list pyfloat) :=
  vna_trace ← __remove_header vna_trace;
  vna_trace ← __create_array vna_trace;
  trace_loop vna_trace (Py.range (length vna_trace)) ([], []).

(** Parse the VNA frequency response from the VNA instrument. *)
Definition parse_vna_frequency (vna_freq : string)
  : result (list pyfloat) :=
  vna_freq ← __remove_header vna_freq;
  vna_freq ← __create_array vna_freq;
  Ok vna_freq.

End WithFloat.

End DataParsing.

(** ** Binary64 values and a reader of short decimal literals *)

Module Float64.

Definition prec : Z := 53.
Definition emax : Z := 1024.

(** The binary64 value nearest to an integer. *)
Definition of_Z (n : Z) : pyfloat := binary_normalize prec emax n 0 false.

Definition digit_value (c : ascii) : Z := Z.of_nat (nat_of_ascii c - 48).

(** Reads a run of decimal digits: the number read so far, how many
    digits were read, and the rest of the string. *)
Fixpoint read_digits (s : string) (acc : Z) (count : nat)
  : Z * nat * string :=
  match s with
  | String c s' =>
      if Py.is_digit c
      then read_digits s' (10 * acc + digit_value c)%Z (S count)
      else (acc, count, s)
  | EmptyString => (acc, count, s)
  end.

Definition read_sign (s : string) : bool * string :=
  match s with
  | String "-" s' => (true, s')
  | String "+" s' => (false, s')
  | _ => (false, s)
  end.

(** What [float()] returns on the literals [[+-]digits[.digits]] that
    convert exactly: those whose digits make an integer below [2^53]
    with at most 22 of them after the point, for which one correctly
    rounded division gives the nearest binary64. Any other string is
    outside this reader and gets [None]. *)
Definition of_literal (s : string) : option pyfloat :=
  let '(neg, s1) := read_sign s in
  let '(ip, ni, s2) := read_digits s1 0%Z 0 in
  let '(m, nf, s3) :=
    match s2 with
    | String "." s2' =>
        let '(m, nf, s3) := read_digits s2' ip 0 in (m, nf, s3)
    | _ => (ip, 0, s2)
    end in
  match s3 with
  | EmptyString =>
      if (0 <? ni + nf) && (m <? 2 ^ 53)%Z && (nf <=? 22)
      then
        let q := SFdiv prec emax (of_Z m) (of_Z (10 ^ Z.of_nat nf)) in
        Some (if neg then SFopp q else q)
      else None
  | _ => None
  end.

(** The float of a literal that [of_literal] reads. *)
Definition literal (s : string) : pyfloat :=
  match of_literal s with
  | Some v => v
  | None => S754_nan
  end.

End Float64.

(** ** Formatting of a float by the format specification [06.2f] *)

Module Format.

(** The integer nearest to [num / den] for [0 <= num] and [0 < den],
    ties going to the even one. *)
Definition round_half_even (num den : Z) : Z :=
  let q := (num / den)%Z in
  let r := (num mod den)%Z in
  match (2 * r ?= den)%Z with
  | Lt => q
  | Gt => (q + 1)%Z
  | Eq => if Z.even q then q else (q + 1)%Z
  end.

(** [|m * 2^e| * 100] rounded to an integer: the digits of the
    correctly rounded two-decimal text of a finite float. *)
Definition hundredths (m : positive) (e : Z) : Z :=
  if (0 <=? e)%Z then (Z.pos m * 2 ^ e * 100)%Z
  else round_half_even (Z.pos m * 100) (2 ^ (- e)).

Definition digit_char (d : Z) : ascii := ascii_of_nat (48 + Z.to_nat d).

Definition two_digits (n : Z) : string :=
  String (digit_char (n / 10)) (String (digit_char (n mod 10)) EmptyString).

(** The text of a number of hundredths: [12345] is [123.45]. *)
Definition fixed2 (h : Z) : string :=
  pretty (Z.to_N (h / 100)) +:+ "." +:+ two_digits (h mod 100).

Definition sign_text (neg : bool) : string := if neg then "-" else "".

(** Sign and unsigned text of the precision-2 fixed-point form. *)
Definition parts (x : pyfloat) : string * string :=
  match x with
  | S754_zero s => (sign_text s, fixed2 0)
  | S754_infinity s => (sign_text s, "inf")
  | S754_nan => ("", "nan")
  | S754_finite s m e => (sign_text s, fixed2 (hundredths m e))
  end.

Fixpoint zeros (n : nat) : string :=
  match n with
  | O => EmptyString
  | S n' => String "0" (zeros n')
  end.

(** [format(x, ".2f")] *)
Definition format_2f (x : pyfloat) : string :=
  let '(sign, body) := parts x in sign +:+ body.

(** [format(x, "06.2f")]: the zeros that bring the text to six
    characters go between the sign and the digits. *)
Definition format_06_2f (x : pyfloat) : string :=
  let '(sign, body) := parts x in
  sign +:+ zeros (6 - (String.length sign + String.length body)) +:+ body.

End Format.

(** ** The file system and the operating-system calls *)

Module OS.

Inductive node : Type :=
| Dir
| File (content : string).

(** The state outside the program: the home directory that
    [os.path.expanduser('~')] answers, and the tree of directories and
    files, keyed by the list of path components from the root. *)
Record world : Type := World {
  home : string;
  nodes : gmap (list string) node
}.

(** One component of a path, followed from the components [cur]. *)
Definition enter (cur : list string) (c : string) : list string :=
  if decide (c = "") then cur
  else if decide (c = ".") then cur
  else if decide (c = "..") then removelast cur
  else cur ++ [c].

(** The components a path names: repeated and trailing slashes and
    [.] name nothing, [..] goes one level up. Paths are followed from
    the root; there are no symbolic links. *)
Definition resolve (p : string) : list string :=
  fold_left enter (Py.split "/" p) [].

Definition node_at (w : world) (k : list string) : option node :=
  match k with
  | [] => Some Dir
  | _ => nodes w !! k
  end.

Definition put (k : list string) (n : node) (w : world) : world :=
  World (home w) (<[k := n]> (nodes w)).

(** Creates node [n] at [k] when the parent of [k] is a directory. *)
Definition create (k : list string) (n : node) (w : world)
  : result unit * world :=
  match node_at w (removelast k) with
  | Some Dir => (Ok tt, put k n w)
  | Some (File _) => (Raise NotADirectoryError, w)
  | None => (Raise FileNotFoundError, w)
  end.

(** [os.path.exists(p)] *)
Definition path_exists (p : string) (w : world) : bool :=
  match node_at w (resolve p) with
  | Some _ => true
  | None => false
  end.

(** [os.mkdir(p)] *)
Definition mkdir (p : string) (w : world) : result unit * world :=
  match node_at w (resolve p) with
  | Some _ => (Raise FileExistsError, w)
  | None => create (resolve p) Dir w
  end.

(** [open(p, 'w')]: the file is created, or emptied when it exists. *)
Definition open_w (p : string) (w : world) : result unit * world :=
  match node_at w (resolve p) with
  | Some Dir => (Raise IsADirectoryError, w)
  | Some (File _) => (Ok tt, put (resolve p) (File "") w)
  | None => create (resolve p) (File "") w
  end.

(** [f.write(data)] and the close at the end of the [with] block, on
    the file opened at [p]. *)
Definition write_close (p : string) (data : string) (w : world)
  : result unit * world :=
  match node_at w (resolve p) with
  | Some (File c) => (Ok tt, put (resolve p) (File (c +:+ data)) w)
  | _ => (Ok tt, w)
  end.

(** A program over the operating system: a tree whose inner nodes are
    the calls it makes, in the order it makes them. *)
Inductive prog (A : Type) : Type :=
| Ret (a : A)
| Throw (e : exn)
| Expanduser (k : string -> prog A)
| PathExists (p : string) (k : bool -> prog A)
| Mkdir (p : string) (k : prog A)
| OpenW (p : string) (k : prog A)
| WriteClose (p : string) (data : string) (k : prog A).

Arguments Ret {A} a.
Arguments Throw {A} e.
Arguments Expanduser {A} k.
Arguments PathExists {A} p k.
Arguments Mkdir {A} p k.
Arguments OpenW {A} p k.
Arguments WriteClose {A} p data k.

Fixpoint bind {A B} (f : A -> prog B) (c : prog A) : prog B :=
  match c with
  | Ret a => f a
  | Throw e => Throw e
  | Expanduser k => Expanduser (fun s => bind f (k s))
  | PathExists p k => PathExists p (fun b => bind f (k b))
  | Mkdir p k => Mkdir p (bind f k)
  | OpenW p k => OpenW p (bind f k)
  | WriteClose p data k => WriteClose p data (bind f k)
  end.

#[global] Instance prog_ret : MRet prog := @Ret.
#[global] Instance prog_bind : MBind prog := @bind.

(** A computation without operating-system calls, inside a program. *)
Definition lift {A} (r : result A) : prog A :=
  match r with
  | Ok a => Ret a
  | Raise e => Throw e
  end.

Definition expanduser : prog string := Expanduser Ret.
Definition exists_ (p : string) : prog bool := PathExists p Ret.
Definition os_mkdir (p : string) : prog unit := Mkdir p (Ret tt).
Definition write_file (p data : string) : prog unit :=
  OpenW p (WriteClose p data (Ret tt)).

(** An exception raised by a call ends the program at that call. *)
Definition after {A} (r : result unit * world) (k : prog A)
  : prog A * world :=
  match r with
  | (Ok _, w') => (k, w')
  | (Raise e, w') => (Throw e, w')
  end.

(** One call of the program, against the world as it is now. *)
Definition step {A} (c : prog A) (w : world) : prog A * world :=
  match c with
  | Ret a => (Ret a, w)
  | Throw e => (Throw e, w)
  | Expanduser k => (k (home w), w)
  | PathExists p k => (k (path_exists p w), w)
  | Mkdir p k => after (mkdir p w) k
  | OpenW p k => after (open_w p w) k
  | WriteClose p data k => after (write_close p data w) k
  end.

(** The program alone, from start to end. *)
Fixpoint run {A} (c : prog A) (w : world) : result A * world :=
  match c with
  | Ret a => (Ok a, w)
  | Throw e => (Raise e, w)
  | Expanduser k => run (k (home w)) w
  | PathExists p k => run (k (path_exists p w)) w
  | Mkdir p k =>
      match mkdir p w with
      | (Ok _, w') => run k w'
      | (Raise e, w') => (Raise e, w')
      end
  | OpenW p k =>
      match open_w p w with
      | (Ok _, w') => run k w'
      | (Raise e, w') => (Raise e, w')
      end
  | WriteClose p data k =>
      match write_close p data w with
      | (Ok _, w') => run k w'
      | (Raise e, w') => (Raise e, w')
      end
  end.

(** Two programs on the same file system: each entry of the schedule
    lets the first ([true]) or the second ([false]) make its next
    call. *)
Fixpoint interleave {A B} (schedule : list bool)
    (a : prog A) (b : prog B) (w : world) : prog A * prog B * world :=
  match schedule with
  | [] => (a, b, w)
  | true :: rest => let '(a', w') := step a w in interleave rest a' b w'
  | false :: rest => let '(b', w') := step b w in interleave rest a b' w'
  end.

(** How a program ended, when it has. *)
Definition outcome {A} (c : prog A) : option (result A) :=
  match c with
  | Ret a => Some (Ok a)
  | Throw e => Some (Raise e)
  | _ => None
  end.

End OS.

(** ** data_storage.py *)

Module DataStorage.
Import OS.

Record data_dict : Type := DataDict {
  freq_value : pyfloat;
  real_value : pyfloat;
  imaginary_value : pyfloat
}.

Record file_dict : Type := FileDict {
  x_coord : pyfloat;
  y_coord : pyfloat;
  z_coord : pyfloat;
  antennae_height : pyfloat;
  timestamp : string;
  survey_id : string;
  sample_id : string;
  data : list data_dict
}.

(** Check the main folder for storing GPR-20 surveys data. *)
Definition __check_main_folder : prog string :=
  home_path ← expanduser;
  let main_folder := home_path +:+ "/gpr20_data/" in
  main_dir_exists ← exists_ main_folder;
  (if negb main_dir_exists then os_mkdir main_folder else Ret tt);;
  Ret main_folder.

(** Check if the survey forder exits and create it if needed. *)
Definition __check_survey_folder (path : string) : prog unit :=
  survey_dir_exists ← exists_ path;
  if negb survey_dir_exists then os_mkdir path else Ret tt.

(** The body of the [for indx in range(len(vna_freq))] loop of
    [store_data]. *)
Definition data_step (vna_freq vna_trace_re vna_trace_im : list pyfloat)
    (indx : nat) (data_list : list data_dict) : result (list data_dict) :=
  f ← Py.getitem vna_freq indx;
  r ← Py.getitem vna_trace_re indx;
  i ← Py.getitem vna_trace_im indx;
  let data_dict :=
    {| freq_value := f; real_value := r; imaginary_value := i |} in
  Ok (data_list ++ [data_dict]).

Fixpoint data_loop (vna_freq vna_trace_re vna_trace_im : list pyfloat)
    (indices : list nat) (data_list : list data_dict)
  : result (list data_dict) :=
  match indices with
  | [] => Ok data_list
  | indx :: rest =>
      data_list ← data_step vna_freq vna_trace_re vna_trace_im
                    indx data_list;
      data_loop vna_freq vna_trace_re vna_trace_im rest data_list
  end.

(** The file name [store_data] formats from the coordinates. *)
Definition file_name (x_coord y_coord z_coord : pyfloat) : string :=
  "X" +:+ Format.format_06_2f x_coord +:+
  "_Y" +:+ Format.format_06_2f y_coord +:+
  "_Z" +:+ Format.format_06_2f z_coord +:+ ".json".

Section WithJson.

(** [json.dumps(file_dict, indent=4)] *)
Variable json_dumps : file_dict -> string.

(** Store the robot data for a sample in the required format. *)
Definition store_data (survey_dir : string)
    (x_coord y_coord z_coord antennae_height : pyfloat)
    (timestamp survey_id sample_id : string)
    (vna_freq vna_trace_re vna_trace_im : list pyfloat) : prog unit :=
  data_list ← lift (data_loop vna_freq vna_trace_re vna_trace_im
                      (Py.range (length vna_freq)) []);
  let file_dict :=
    {| x_coord := x_coord; y_coord := y_coord; z_coord := z_coord;
       antennae_height := antennae_height; timestamp := timestamp;
       survey_id := survey_id; sample_id := sample_id;
       data := data_list |} in
  let json_str := json_dumps file_dict in
  let fname := file_name x_coord y_coord z_coord in
  main_dir ← __check_main_folder;
  let survey_path := main_dir +:+ "/" +:+ survey_dir in
  __check_survey_folder survey_path;;
  write_file (survey_path +:+ "/" +:+ fname) json_str.

End WithJson.

End DataStorage.

(** ** data_processing.py *)

Module DataProcessing.
Import OS.

Section WithBuiltins.

Variable float : string -> option pyfloat.
Variable json_dumps : DataStorage.file_dict -> string.

(** Process the VNA data and store it in persistent storage. *)
Definition process_data (survey_dir : string)
    (x_coord y_coord z_coord antennae_height : pyfloat)
    (timestamp survey_id sample_id : string)
    (vna_freq vna_trace : string) : prog unit :=
  vna_freq ← lift (DataParsing.parse_vna_frequency float vna_freq);
  '(vna_trace_re, vna_trace_im) ←
    lift (DataParsing.parse_vna_trace float vna_trace);
  DataStorage.store_data json_dumps survey_dir
    x_coord y_coord z_coord antennae_height
    timestamp survey_id sample_id
    vna_freq vna_trace_re vna_trace_im.

End WithBuiltins.

End DataProcessing.

(** ** A JSON text for the closed examples

    [store_data] is parametric in [json.dumps]. Where an example needs
    one concrete text, it is the layout of [json.dumps(..., indent=4)]
    with the keys in the order the source writes them and each finite
    float as its exact decimal expansion (which is its [repr] for the
    values the examples store, such as [1.0] and [2.25]). *)

Module Json.
Import DataStorage.

Definition quote : string := String (ascii_of_nat 34) EmptyString.
Definition newline : string := String (ascii_of_nat 10) EmptyString.

Fixpoint escape (s : string) : string :=
  match s with
  | EmptyString => EmptyString
  | String c s' =>
      if (nat_of_ascii c =? 34) || (nat_of_ascii c =? 92)
      then String "\" (String c (escape s'))
      else String c (escape s')
  end.

Definition str_text (s : string) : string := quote +:+ escape s +:+ quote.

(** The last [k] decimal digits of [n], most significant first, with
    the trailing zeros after the first digit dropped. *)
Fixpoint fraction_digits (k : nat) (n : Z) (acc : string) : string :=
  match k with
  | O => acc
  | S k' =>
      let d := (n mod 10)%Z in
      let acc' :=
        if (d =? 0)%Z && bool_decide (acc = EmptyString) && negb (k' =? 0)
        then EmptyString
        else String (Format.digit_char d) acc in
      fraction_digits k' (n / 10)%Z acc'
  end.

Definition float_text (x : pyfloat) : string :=
  match x with
  | S754_zero s => Format.sign_text s +:+ "0.0"
  | S754_infinity s => Format.sign_text s +:+ "Infinity"
  | S754_nan => "NaN"
  | S754_finite s m e =>
      Format.sign_text s +:+
      (if (0 <=? e)%Z
       then pretty (Z.to_N (Z.pos m * 2 ^ e)) +:+ ".0"
       else
         let k := Z.to_nat (- e) in
         pretty (Z.to_N (Z.pos m / 2 ^ (- e))) +:+ "." +:+
         fraction_digits (Nat.max k 1)
           ((Z.pos m mod 2 ^ (- e)) * 5 ^ (- e))%Z EmptyString)
  end.

Definition member (indent key value : string) : string :=
  indent +:+ quote +:+ key +:+ quote +:+ ": " +:+ value.

Fixpoint join_lines (items : list string) : string :=
  match items with
  | [] => EmptyString
  | [x] => x
  | x :: rest => x +:+ "," +:+ newline +:+ join_lines rest
  end.

Definition data_dict_text (d : data_dict) : string :=
  "        {" +:+ newline +:+
  join_lines
    [ member "            " "freq_value" (float_text (freq_value d));
      member "            " "real_value" (float_text (real_value d));
      member "            " "imaginary_value"
        (float_text (imaginary_value d)) ] +:+
  newline +:+ "        }".

Definition data_text (l : list data_dict) : string :=
  match l with
  | [] => "[]"
  | _ => "[" +:+ newline +:+ join_lines (map data_dict_text l) +:+
         newline +:+ "    ]"
  end.

Definition dumps (fd : file_dict) : string :=
  "{" +:+ newline +:+
  join_lines
    [ member "    " "x_coord" (float_text (x_coord fd));
      member "    " "y_coord" (float_text (y_coord fd));
      member "    " "z_coord" (float_text (z_coord fd));
      member "    " "antennae_height" (float_text (antennae_height fd));
      member "    " "timestamp" (str_text (timestamp fd));
      member "    " "survey_id" (str_text (survey_id fd));
      member "    " "sample_id" (str_text (sample_id fd));
      member "    " "data" (data_text (data fd)) ] +:+
  newline +:+ "}".

End Json.

(** ** Values of the examples *)

Module Sample.
Import OS.

(** [1.5], [2.25], [0.0] and [3.1] as binary64 values. *)
Definition f1_5 : pyfloat := Float64.literal "1.5".
Definition f2_25 : pyfloat := Float64.literal "2.25".
Definition f0_0 : pyfloat := Float64.literal "0.0".
Definition f3_1 : pyfloat := Float64.literal "3.1".

(** A file system with the home directory [/home/gpr20] and nothing
    else. *)
Definition fresh_home : world :=
  World "/home/gpr20"
    (<[ ["home"; "gpr20"] := Dir ]> (<[ ["home"] := Dir ]> ∅)).

(** The same with the main data directory in it. *)
Definition with_main_folder : world :=
  put ["home"; "gpr20"; "gpr20_data"] Dir fresh_home.

End Sample.

(** ** Vocabulary of the specification *)

Module Spec.

(** The elements at positions 0, 2, 4, ... *)
Fixpoint even_positions {A} (l : list A) : list A :=
  match l with
  | [] => []
  | x :: l' =>
      x :: match l' with
           | [] => []
           | _ :: l'' => even_positions l''
           end
  end.

(** The elements at positions 1, 3, 5, ... *)
Definition odd_positions {A} (l : list A) : list A :=
  match l with
  | [] => []
  | _ :: l' => even_positions l'
  end.

Fixpoint has_comma (s : string) : bool :=
  match s with
  | EmptyString => false
  | String c s' => Ascii.eqb c "," || has_comma s'
  end.

(** The comma-separated list, each literal followed by its comma. *)
Fixpoint payload (segs : list string) : string :=
  match segs with
  | [] => EmptyString
  | s :: rest => s +:+ "," +:+ payload rest
  end.

Definition digit_of (n : nat) : ascii := ascii_of_nat (48 + n).

(** The floats that are numbers: neither an infinity nor a NaN. *)
Definition is_number (x : pyfloat) : bool :=
  match x with
  | S754_zero _ | S754_finite _ _ _ => true
  | S754_infinity _ | S754_nan => false
  end.

(** A text with two decimals: the digits of a natural number, a
    point, and two digits. *)
Definition two_decimals (body : string) : Prop :=
  exists (n : N) (d1 d2 : ascii),
    body = pretty n +:+ "." +:+ String d1 (String d2 EmptyString)
    /\ Py.is_digit d1 = true /\ Py.is_digit d2 = true.

(** The shape of the text of a coordinate in a file name: a sign or
    none, then the zeros that fill the field up to six characters,
    then the two decimal fixed-point digits of a number ([inf] or
    [nan] for the floats that are not numbers). Which sign and which
    digits a coordinate gets is said by [Field.text] below. *)
Definition coordinate_text (x : pyfloat) (text : string) : Prop :=
  exists sign body : string,
    text = sign +:+
           Format.zeros (6 - (String.length sign + String.length body))
           +:+ body
    /\ (sign = "" \/ sign = "-")
    /\ (if is_number x then two_decimals body
        else body = "inf" \/ body = "nan")
    /\ 6 <= String.length text.

(** The triples of three sequences paired by position, as many as the
    shortest sequence has. *)
Fixpoint triples (freqs reals imags : list pyfloat)
  : list DataStorage.data_dict :=
  match freqs, reals, imags with
  | f :: freqs', r :: reals', i :: imags' =>
      DataStorage.DataDict f r i :: triples freqs' reals' imags'
  | _, _, _ => []
  end.

(** The response [#N<N header bytes><literals>,]. *)
Definition response (header : string) (segs : list string) : string :=
  String "#" (String (digit_of (String.length header))
                (header +:+ payload segs)).

(** The malformed responses of the decoder, each with what decoding
    it gives. *)
Inductive malformed (float : string -> option pyfloat)
  : string -> result (list pyfloat) -> Prop :=
| no_header_digit s :
    String.length s < 2 ->
    malformed float s (Raise IndexError)
| bad_header_digit c0 c rest :
    Py.is_digit c = false ->
    malformed float (String c0 (String c rest)) (Raise ValueError)
| bad_segment s rest bad :
    DataParsing.__remove_header s = Ok rest ->
    bad ∈ removelast (Py.split "," rest) ->
    float bad = None ->
    malformed float s (Raise ValueError)
| truncated c0 n rest :
    n <= 9 ->
    String.length rest < n ->
    malformed float (String c0 (String (digit_of n) rest)) (Ok []).

End Spec.

(** ** data_node.py *)

Module DataNode.
Import OS.

(** Modelled from the spec: the request message
    [gpr20_msgs.srv.ProcessingStoreData], declared outside the package;
    its fields are the ten the handler reads. *)
Record ProcessingStoreData : Type := {
  survey_dir : string;
  x_coord : pyfloat;
  y_coord : pyfloat;
  z_coord : pyfloat;
  antennae_height : pyfloat;
  timestamp : string;
  survey_id : string;
  sample_id : string;
  vna_freq : string;
  vna_trace : string
}.

(** Modelled from the spec: the empty response
    [gpr20_msgs.srv.ProcessingStoreDataResponse]. *)
Inductive ProcessingStoreDataResponse : Type :=
| EmptyResponse.

Section WithBuiltins.

Variable float : string -> option pyfloat.
Variable json_dumps : DataStorage.file_dict -> string.

(** Hanlde the request to store data of GPR-20. *)
Definition __store_data_handler (srv : ProcessingStoreData)
  : prog ProcessingStoreDataResponse :=
  DataProcessing.process_data float json_dumps
    (survey_dir srv)
    (x_coord srv) (y_coord srv) (z_coord srv) (antennae_height srv)
    (timestamp srv) (survey_id srv) (sample_id srv)
    (vna_freq srv) (vna_trace srv);;
  Ret EmptyResponse.

End WithBuiltins.

End DataNode.

(** ** Vocabulary of the further properties *)

Module Shape.

(** How many times a character occurs in a string. *)
Fixpoint count_char (c : ascii) (s : string) : nat :=
  match s with
  | EmptyString => 0
  | String c' s' => (if Ascii.eqb c' c then 1 else 0) + count_char c s'
  end.

(** Whether every character of a string passes a test. *)
Fixpoint all_chars (test : ascii -> bool) (s : string) : bool :=
  match s with
  | EmptyString => true
  | String c s' => test c && all_chars test s'
  end.

Definition not_slash (c : ascii) : bool := negb (Ascii.eqb c "/").

(** A name of one path component: no slash in it, and not one of the
    names that path resolution reads as staying or going up. *)
Definition plain_name (s : string) : Prop :=
  all_chars not_slash s = true /\ s <> "" /\ s <> "." /\ s <> "..".

(** A response as [Spec.response], with [tail] after the last comma. *)
Definition response_with_tail (header : string) (segs : list string)
    (tail : string) : string :=
  String "#" (String (Spec.digit_of (String.length header))
                (header +:+ Spec.payload segs +:+ tail)).

(** The three nodes [store_data] works on: the main folder, the survey
    folder and the file. *)
Definition main_node (w : OS.world) : list string :=
  OS.resolve (OS.home w +:+ "/gpr20_data/").

Definition survey_node (w : OS.world) (survey_dir : string) : list string :=
  OS.resolve ((OS.home w +:+ "/gpr20_data/") +:+ "/" +:+ survey_dir).

Definition file_node (w : OS.world) (survey_dir : string)
    (x y z : pyfloat) : list string :=
  OS.resolve (((OS.home w +:+ "/gpr20_data/") +:+ "/" +:+ survey_dir)
              +:+ "/" +:+ DataStorage.file_name x y z).

(** The record [store_data] serialises. *)
Definition record (x y z h : pyfloat) (ts sid smp : string)
    (vf re im : list pyfloat) : DataStorage.file_dict :=
  {| DataStorage.x_coord := x; DataStorage.y_coord := y;
     DataStorage.z_coord := z; DataStorage.antennae_height := h;
     DataStorage.timestamp := ts; DataStorage.survey_id := sid;
     DataStorage.sample_id := smp;
     DataStorage.data := Spec.triples vf re im |}.

(** Whether the real and the imaginary list reach every index of the
    frequency list. *)
Definition fits (vf re im : list pyfloat) : bool :=
  (length vf <=? length re) && (length vf <=? length im).

(** What may differ between a file system and a later one, when only
    the directories [dirs] may have been created and only the file at
    [file] written: each node is as before, or is a directory of
    [dirs] that was not there, or is the file, where no directory
    was. *)
Definition grown (dirs : list (list string)) (file : list string)
    (w w' : OS.world) : Prop :=
  OS.home w' = OS.home w
  /\ forall k,
       OS.node_at w' k = OS.node_at w k
       \/ (OS.node_at w k = None /\ k ∈ dirs
           /\ OS.node_at w' k = Some OS.Dir)
       \/ (k = file /\ OS.node_at w k <> Some OS.Dir
           /\ exists c, OS.node_at w' k = Some (OS.File c)).

(** The outcome of ensuring a directory, in the file system before
    and after: with success the directory is there, left as it was or
    just created; a failure leaves everything as it was, comes from a
    missing or non-directory parent, and the path was not there. *)
Definition ensured (p : string) (w : OS.world)
    (r : result unit) (w' : OS.world) : Prop :=
  match r with
  | Ok _ =>
      OS.path_exists p w' = true
      /\ ((OS.path_exists p w = true /\ w' = w)
          \/ (OS.path_exists p w = false
              /\ w' = OS.put (OS.resolve p) OS.Dir w))
  | Raise e =>
      w' = w /\ OS.path_exists p w = false
      /\ (e = FileNotFoundError \/ e = NotADirectoryError)
  end.

End Shape.

(** ** Names and paths that the file-system model reads as the
    operating system does

    [OS.resolve] reads a path by its text alone and the calls of [OS]
    look at a node and its parent only. The operating system follows
    the path through the file system instead: it refuses a trailing
    slash after a regular file, a [..] after a missing name, a NUL in
    a name, and names and paths beyond a length. On the paths below
    the two readings agree. The properties that say what a call does
    on every file system are stated for these paths. *)

Module Portable.

(** A character of a portable name: ASCII, not NUL, not a slash. *)
Definition name_char (c : ascii) : bool :=
  let n := nat_of_ascii c in
  (1 <=? n) && (n <=? 127) && negb (n =? 47).

(** One path component that names an entry: portable characters, not
    empty, not a dot name, within the 255 bytes of a file name. *)
Definition name (s : string) : Prop :=
  Shape.all_chars name_char s = true
  /\ s <> "" /\ s <> "." /\ s <> ".."
  /\ String.length s <= 255.

Fixpoint join (names : list string) : string :=
  match names with
  | [] => EmptyString
  | n :: rest => "/" +:+ n +:+ join rest
  end.

(** An absolute path of portable names, [/n1/n2/.../nk] with
    [k >= 1]. *)
Definition path (p : string) : Prop :=
  exists names,
    names <> [] /\ Forall name names /\ p = join names.

(** The paths [store_data] builds, when the home directory is a
    portable path, the survey folder one portable name, and names and
    paths are within the lengths the operating system takes. *)
Definition survey_path (w : OS.world) (survey_dir : string) : Prop :=
  path (OS.home w)
  /\ name survey_dir
  /\ String.length ((OS.home w +:+ "/gpr20_data/") +:+ "/" +:+ survey_dir)
     <= 4095.

Definition file_path (w : OS.world) (survey_dir : string)
    (x y z : pyfloat) : Prop :=
  survey_path w survey_dir
  /\ String.length (DataStorage.file_name x y z) <= 255
  /\ String.length
       (((OS.home w +:+ "/gpr20_data/") +:+ "/" +:+ survey_dir)
        +:+ "/" +:+ DataStorage.file_name x y z) <= 4095.

(** The exceptions of the loop of [store_data], of [os.mkdir] and of
    [open]. *)
Definition before_write (e : exn) : Prop :=
  e = IndexError \/ e = FileExistsError \/ e = FileNotFoundError
  \/ e = NotADirectoryError \/ e = IsADirectoryError.

End Portable.

(** ** The text of a coordinate, said from its value *)

Module Field.

(** [h] is the whole number of hundredths nearest to [m * 2^e], the
    even one when two are equally near. *)
Definition nearest_hundredths (m : positive) (e : Z) (h : Z) : Prop :=
  let num := (Z.pos m * 100 * 2 ^ Z.max 0 e)%Z in
  let den := (2 ^ Z.max 0 (- e))%Z in
  (2 * Z.abs (num - h * den) <= den)%Z
  /\ ((2 * Z.abs (num - h * den))%Z = den -> Z.even h = true).

(** The decimal digits of [h] hundredths, two of them after the
    point. *)
Definition decimals (h : Z) : string :=
  pretty (Z.to_N (h / 100)) +:+ "." +:+
  String (pretty_N_char (Z.to_N (h mod 100 / 10)))
    (String (pretty_N_char (Z.to_N (h mod 10))) EmptyString).

Definition sign (negative : bool) : string :=
  if negative then "-" else "".

Definition fill (n : nat) : string :=
  string_of_list_ascii (repeat "0"%char n).

(** The sign, then zeros up to six characters in all, then the body;
    no zeros when sign and body have six characters or more. *)
Definition padded (sign body : string) : string :=
  sign +:+ fill (6 - (String.length sign + String.length body)) +:+ body.

(** The text of a coordinate in the file name. *)
Inductive text : pyfloat -> string -> Prop :=
| text_finite s m e h :
    nearest_hundredths m e h ->
    text (S754_finite s m e) (padded (sign s) (decimals h))
| text_zero s :
    text (S754_zero s) (padded (sign s) "0.00")
| text_infinity s :
    text (S754_infinity s) (padded (sign s) "inf")
| text_nan :
    text S754_nan "000nan".

(** Whether the text of [h] hundredths, with its sign, has room in
    six characters: below [1000.00], or below [100.00] with a minus
    sign. *)
Definition fits_six (negative : bool) (h : Z) : bool :=
  if negative then (h <? 10000)%Z else (h <? 100000)%Z.

End Field.

(** * Properties *)

(** ** The values of the examples *)

(** [1.5] is [3 * 2^-1], [2.25] is [9 * 2^-2], and [3.1] is the
    binary64 next to it, a little above. *)
Lemma sample_values :
  Sample.f1_5 = binary_normalize Float64.prec Float64.emax 3 (-1) false
  /\ Sample.f2_25 = binary_normalize Float64.prec Float64.emax 9 (-2) false
  /\ Sample.f0_0 = S754_zero false
  /\ Sample.f3_1 = S754_finite false 6980579422424269 (-51)
  /\ (31 * 2 ^ 51 < 10 * 6980579422424269)%Z
  /\ Float64.of_literal "1.0" = Some (Float64.of_Z 1).
Proof. repeat split; vm_compute; reflexivity. Qed.

(** ** Python built-ins *)

Lemma bind_ok {A B} (f : A -> result B) (a : A) : (Ok a ≫= f) = f a.
Proof. reflexivity. Qed.

Lemma bind_raise {A B} (f : A -> result B) (e : exn) :
  (Raise e ≫= f) = Raise e.
Proof. reflexivity. Qed.

Lemma getitem_lookup {A} (l : list A) (i : nat) (x : A) :
  l !! i = Some x -> Py.getitem l i = Ok x.
Proof. intros H. unfold Py.getitem. by rewrite H. Qed.

Lemma getitem_out_of_range {A} (l : list A) (i : nat) :
  length l <= i -> Py.getitem l i = Raise IndexError.
Proof.
  intros H. unfold Py.getitem. by rewrite (lookup_ge_None_2 l i H).
Qed.

Lemma slice_from_append (h s : string) :
  Py.slice_from (String.length h) (h +:+ s) = s.
Proof. induction h as [|c h IH]; simpl; [by destruct s | exact IH]. Qed.

Lemma slice_from_short (n : nat) (s : string) :
  String.length s <= n -> Py.slice_from n s = EmptyString.
Proof.
  revert s. induction n as [|n IH]; intros [|c s] Hlen; simpl in *;
    try reflexivity; try lia.
  apply IH. lia.
Qed.

(** [split] never returns the empty list, so [len(...) - 1] in
    [__create_array] never goes below zero. *)
Lemma split_not_nil (sep : ascii) (s : string) : Py.split sep s <> [].
Proof.
  destruct s as [|c s]; simpl; [discriminate|].
  destruct (Ascii.eqb c sep); [discriminate|].
  destruct (Py.split sep s); discriminate.
Qed.

Lemma split_segment (s rest : string) :
  Spec.has_comma s = false ->
  Py.split "," (s +:+ "," +:+ rest) = s :: Py.split "," rest.
Proof.
  induction s as [|c s IH]; simpl; intros Hc; [reflexivity|].
  apply orb_false_elim in Hc as [Hc Hs].
  rewrite Hc, (IH Hs). reflexivity.
Qed.

Lemma split_payload (segs : list string) :
  Forall (fun s => Spec.has_comma s = false) segs ->
  Py.split "," (Spec.payload segs) = segs ++ [EmptyString].
Proof.
  induction 1 as [|s segs Hs _ IH]; simpl; [reflexivity|].
  by rewrite (split_segment _ _ Hs), IH.
Qed.

Lemma int_of_char_digit (n : nat) :
  n <= 9 -> Py.int_of_char (Spec.digit_of n) = Ok n.
Proof.
  intros H. do 10 (destruct n as [|n]; [reflexivity|]). lia.
Qed.

Lemma int_of_char_not_digit (c : ascii) :
  Py.is_digit c = false -> Py.int_of_char c = Raise ValueError.
Proof. intros H. unfold Py.int_of_char. by rewrite H. Qed.

(** A comprehension over [range(n)] that indexes a list reads the
    first [n] elements in order. *)
Lemma comprehension_range {A B} (f : A -> result B) (l : list A) (n k : nat) :
  k + n <= length l ->
  Py.comprehension (fun i => x ← Py.getitem l i; f x) (seq k n)
  = Py.comprehension f (take n (drop k l)).
Proof.
  revert k. induction n as [|n IH]; intros k Hlen; simpl; [reflexivity|].
  destruct (lookup_lt_is_Some_2 l k ltac:(lia)) as [x Hx].
  rewrite (drop_S l x k Hx). simpl.
  rewrite (getitem_lookup _ _ _ Hx), bind_ok.
  rewrite (IH (S k)) by lia. reflexivity.
Qed.

Lemma comprehension_forall2 {A B} (f : A -> result B)
    (l : list A) (r : list B) :
  Forall2 (fun x y => f x = Ok y) l r -> Py.comprehension f l = Ok r.
Proof.
  induction 1 as [|x y l r Hxy _ IH]; simpl; [reflexivity|].
  by rewrite Hxy, bind_ok, IH.
Qed.

(** ** The response decoder *)

Section Decoder.
Import DataParsing.

Variable float : string -> option pyfloat.

Lemma py_float_some (s : string) (v : pyfloat) :
  float s = Some v -> py_float float s = Ok v.
Proof. intros H. unfold py_float. by rewrite H. Qed.

Lemma py_float_none (s : string) :
  float s = None -> py_float float s = Raise ValueError.
Proof. intros H. unfold py_float. by rewrite H. Qed.

(** The comprehension of [__create_array] converts every segment of
    the split but the last. *)
Lemma create_array_eq (s : string) :
  __create_array float s
  = Py.comprehension (py_float float) (removelast (Py.split "," s)).
Proof.
  unfold __create_array, Py.range.
  rewrite comprehension_range by (simpl; lia).
  rewrite drop_0, removelast_firstn_len, Nat.sub_1_r. reflexivity.
Qed.

Lemma comprehension_bad_segment (l : list string) (bad : string) :
  bad ∈ l -> float bad = None ->
  Py.comprehension (py_float float) l = Raise ValueError.
Proof.
  intros Hin Hbad. induction l as [|x l IH]; [by apply elem_of_nil in Hin|].
  simpl. destruct (float x) as [v|] eqn:Hx.
  - rewrite (py_float_some _ _ Hx), bind_ok.
    apply elem_of_cons in Hin as [->|Hin]; [congruence|].
    by rewrite (IH Hin).
  - by rewrite (py_float_none _ Hx).
Qed.

Lemma remove_header_cons (c0 c : ascii) (rest : string) (n : nat) :
  Py.int_of_char c = Ok n ->
  __remove_header (String c0 (String c rest)) = Ok (Py.slice_from n rest).
Proof.
  intros H. unfold __remove_header. simpl. rewrite H, bind_ok.
  by rewrite Nat.add_1_r.
Qed.

Lemma remove_header_response (header : string) (segs : list string) :
  String.length header <= 9 ->
  __remove_header (Spec.response header segs) = Ok (Spec.payload segs).
Proof.
  intros H. unfold Spec.response.
  rewrite (remove_header_cons _ _ _ _ (int_of_char_digit _ H)).
  by rewrite slice_from_append.
Qed.

Lemma parse_vna_frequency_cons (c0 c : ascii) (rest : string) (n : nat) :
  Py.int_of_char c = Ok n ->
  parse_vna_frequency float (String c0 (String c rest))
  = Py.comprehension (py_float float)
      (removelast (Py.split "," (Py.slice_from n rest))).
Proof.
  intros H. unfold parse_vna_frequency.
  rewrite (remove_header_cons _ _ _ _ H), bind_ok, create_array_eq.
  by destruct (Py.comprehension _ _).
Qed.

End Decoder.

(** C2. Every valid response [#N<N header bytes><literals>,], where
    [N] is one decimal digit, the header has [N] bytes, and the payload
    is a list of float literals each followed by a comma, decodes to
    exactly the floats of the literals, in their order. *)
Theorem parse_vna_frequency_valid
    (float : string -> option pyfloat)
    (header : string) (segs : list string) (vals : list pyfloat) :
  String.length header <= 9 ->
  Forall (fun s => Spec.has_comma s = false) segs ->
  Forall2 (fun s v => float s = Some v) segs vals ->
  DataParsing.parse_vna_frequency float (Spec.response header segs) = Ok vals.
Proof.
  intros Hlen Hcomma Hvals. unfold DataParsing.parse_vna_frequency.
  rewrite (remove_header_response _ _ Hlen), bind_ok, create_array_eq.
  rewrite (split_payload _ Hcomma), removelast_last.
  rewrite (comprehension_forall2 _ segs vals); [reflexivity|].
  eapply Forall2_impl; [exact Hvals|].
  intros s v Hs. by apply py_float_some.
Qed.

Lemma parse_vna_frequency_valid_witness :
  DataParsing.parse_vna_frequency Float64.of_literal
    (Spec.response "12" ["1.0"; "2.0"; "3.0"])
  = Ok [Float64.of_Z 1; Float64.of_Z 2; Float64.of_Z 3].
Proof.
  apply (parse_vna_frequency_valid Float64.of_literal "12"
           ["1.0"; "2.0"; "3.0"]).
  - simpl. lia.
  - repeat constructor.
  - repeat constructor; vm_compute; reflexivity.
Defined.

(** C3, as the code has it. A response with fewer than two characters
    fails with [IndexError]; one whose header-length character is not a
    decimal digit fails with [ValueError]; one with a segment before the
    last that is not a float literal fails with [ValueError]. A response
    of two characters or more that is shorter than its header length
    promises does not fail: the slice past its end is empty and the
    decoder returns the empty list. *)
Theorem malformed_response_outcome
    (float : string -> option pyfloat)
    (s : string) (r : result (list pyfloat)) :
  Spec.malformed float s r ->
  DataParsing.parse_vna_frequency float s = r.
Proof.
  intros [s' Hlen | c0 c rest Hc | s' rest bad Hhdr Hin Hbad
         | c0 n rest Hn Hlen].
  - destruct s' as [|c0 [|c1 s']]; simpl in Hlen; [reflexivity..|lia].
  - unfold DataParsing.parse_vna_frequency, DataParsing.__remove_header.
    simpl. by rewrite (int_of_char_not_digit _ Hc).
  - unfold DataParsing.parse_vna_frequency.
    rewrite Hhdr, bind_ok, create_array_eq.
    by rewrite (comprehension_bad_segment _ _ _ Hin Hbad).
  - rewrite (parse_vna_frequency_cons _ _ _ _ _ (int_of_char_digit _ Hn)).
    rewrite slice_from_short by lia. reflexivity.
Qed.

Lemma malformed_response_outcome_witness :
  DataParsing.parse_vna_frequency Float64.of_literal "#" = Raise IndexError
  /\ DataParsing.parse_vna_frequency Float64.of_literal "#x1.0,"
     = Raise ValueError
  /\ DataParsing.parse_vna_frequency Float64.of_literal "#01.0,2.o,3.0,"
     = Raise ValueError
  /\ DataParsing.parse_vna_frequency Float64.of_literal "#5ab" = Ok [].
Proof.
  split; [|split; [|split]].
  - apply malformed_response_outcome, Spec.no_header_digit. simpl. lia.
  - apply malformed_response_outcome, Spec.bad_header_digit. reflexivity.
  - apply malformed_response_outcome.
    apply (Spec.bad_segment _ _ "1.0,2.o,3.0," "2.o");
      [reflexivity| |reflexivity].
    simpl. apply elem_of_cons. right. apply elem_of_cons. by left.
  - apply (malformed_response_outcome _ _ _
             (Spec.truncated _ "#" 5 "ab" ltac:(lia) ltac:(simpl; lia))).
Defined.

(** C3 as stated fails: [#5ab] promises five header bytes and has two,
    and decoding it returns the empty list instead of failing. *)
Lemma truncated_response_decodes_empty :
  String.length "#5ab" < 2 + 5
  /\ DataParsing.parse_vna_frequency Float64.of_literal "#5ab" = Ok []
  /\ is_raise (DataParsing.parse_vna_frequency Float64.of_literal "#5ab")
     = false.
Proof. split; [simpl; lia|split; reflexivity]. Qed.

(** C5, as the code has it. The header length of
    [#15xxxxxxxxxxxxxxx1.0,2.0,3.0,] is its one digit [1], so only the
    [5] is skipped, the first segment is [xxxxxxxxxxxxxxx1.0], and
    decoding fails with [ValueError]; behind a one-digit header such as
    [#9xxxxxxxxx] the same payload decodes to [[1.0, 2.0, 3.0]]. *)
Theorem two_digit_header_scenario
    (float : string -> option pyfloat) (v1 v2 v3 : pyfloat) :
  float "xxxxxxxxxxxxxxx1.0" = None ->
  float "1.0" = Some v1 -> float "2.0" = Some v2 -> float "3.0" = Some v3 ->
  DataParsing.__remove_header "#15xxxxxxxxxxxxxxx1.0,2.0,3.0,"
  = Ok "xxxxxxxxxxxxxxx1.0,2.0,3.0,"
  /\ DataParsing.parse_vna_frequency float "#15xxxxxxxxxxxxxxx1.0,2.0,3.0,"
     = Raise ValueError
  /\ DataParsing.parse_vna_frequency float "#9xxxxxxxxx1.0,2.0,3.0,"
     = Ok [v1; v2; v3].
Proof.
  intros Hx H1 H2 H3. split; [reflexivity|]. split.
  - rewrite (parse_vna_frequency_cons float "#" "1" _ 1 eq_refl).
    simpl. by rewrite (py_float_none _ _ Hx).
  - rewrite (parse_vna_frequency_cons float "#" "9" _ 9 eq_refl).
    simpl.
    by rewrite (py_float_some _ _ _ H1), (py_float_some _ _ _ H2),
      (py_float_some _ _ _ H3).
Qed.

Lemma two_digit_header_scenario_witness :
  DataParsing.__remove_header "#15xxxxxxxxxxxxxxx1.0,2.0,3.0,"
  = Ok "xxxxxxxxxxxxxxx1.0,2.0,3.0,"
  /\ DataParsing.parse_vna_frequency Float64.of_literal
       "#15xxxxxxxxxxxxxxx1.0,2.0,3.0,"
     = Raise ValueError
  /\ DataParsing.parse_vna_frequency Float64.of_literal
       "#9xxxxxxxxx1.0,2.0,3.0,"
     = Ok [Float64.of_Z 1; Float64.of_Z 2; Float64.of_Z 3].
Proof.
  apply (two_digit_header_scenario Float64.of_literal);
    vm_compute; reflexivity.
Defined.

(** C5 as stated fails: the decoder does not return [[1.0, 2.0, 3.0]]
    on [#15xxxxxxxxxxxxxxx1.0,2.0,3.0,], it raises [ValueError]. *)
Lemma two_digit_header_fails :
  DataParsing.parse_vna_frequency Float64.of_literal
    "#15xxxxxxxxxxxxxxx1.0,2.0,3.0,"
  = Raise ValueError
  /\ DataParsing.parse_vna_frequency Float64.of_literal
       "#15xxxxxxxxxxxxxxx1.0,2.0,3.0,"
     <> Ok [Float64.of_Z 1; Float64.of_Z 2; Float64.of_Z 3].
Proof. split; [vm_compute; reflexivity | vm_compute; discriminate]. Qed.

(** C10. The decoder never looks at the first character: two responses
    that differ only in it, of any length and so of length two or more,
    decode to the same value or fail with the same exception, and a
    response that starts with another character than [#] is read as if
    it started with [#]. *)
Theorem first_character_ignored
    (float : string -> option pyfloat) (c1 c2 : ascii) (rest : string) :
  DataParsing.parse_vna_frequency float (String c1 rest)
  = DataParsing.parse_vna_frequency float (String c2 rest)
  /\ DataParsing.parse_vna_frequency float (String c1 rest)
     = DataParsing.parse_vna_frequency float (String "#" rest).
Proof. split; reflexivity. Qed.

(** ** The trace splitter *)

Lemma list_pair_ind {A} (P : list A -> Prop) :
  P [] -> (forall x, P [x]) -> (forall x y l, P l -> P (x :: y :: l)) ->
  forall l, P l.
Proof.
  intros Hnil Hone Hstep l.
  assert (P l /\ forall x, P (x :: l)) as [H _]; [|exact H].
  induction l as [|y l [IH1 IH2]]; split; auto.
Qed.

Lemma mod2_succ_succ (n : nat) : S (S n) mod 2 = n mod 2.
Proof.
  replace (S (S n)) with (n + 1 * 2) by lia. apply Nat.Div0.mod_add.
Qed.

Lemma mod2_not_one (n : nat) : negb (n mod 2 =? 1) = (n mod 2 =? 0).
Proof.
  pose proof (Nat.mod_upper_bound n 2 ltac:(lia)) as H.
  destruct (n mod 2) as [|[|m]]; [reflexivity..|lia].
Qed.

Lemma even_positions_snoc {A} (l : list A) (x : A) :
  Spec.even_positions (l ++ [x])
  = if length l mod 2 =? 0
    then Spec.even_positions l ++ [x]
    else Spec.even_positions l.
Proof.
  induction l as [| y | y z l IH] using list_pair_ind; [reflexivity..|].
  change (length (y :: z :: l)) with (S (S (length l))).
  rewrite mod2_succ_succ.
  change (Spec.even_positions ((y :: z :: l) ++ [x]))
    with (y :: Spec.even_positions (l ++ [x])).
  change (Spec.even_positions (y :: z :: l))
    with (y :: Spec.even_positions l).
  rewrite IH. by destruct (length l mod 2 =? 0).
Qed.

Lemma even_positions_lookup {A} (l : list A) (i : nat) :
  Spec.even_positions l !! i = l !! (2 * i).
Proof.
  revert i. induction l as [| y | y z l IH] using list_pair_ind; intros i.
  - reflexivity.
  - destruct i as [|i]; [reflexivity|].
    replace (2 * S i) with (S (S (2 * i))) by lia. reflexivity.
  - destruct i as [|i]; [reflexivity|].
    replace (2 * S i) with (S (S (2 * i))) by lia. simpl. apply IH.
Qed.

Section Splitter.
Import DataParsing.

Variable float : string -> option pyfloat.

(** One turn of the loop: both conditions hold at an even index and
    neither at an odd one, so both lists get the value or none does. *)
Lemma trace_step_eq (l : list pyfloat) (k : nat) (v : pyfloat)
    (re im : list pyfloat) :
  l !! k = Some v ->
  trace_step l k (re, im)
  = Ok (if k mod 2 =? 0 then (re ++ [v], im ++ [v]) else (re, im)).
Proof.
  intros Hv. unfold trace_step.
  rewrite mod2_not_one, (getitem_lookup _ _ _ Hv).
  by destruct (k mod 2 =? 0).
Qed.

Lemma trace_loop_take (l : list pyfloat) (n k : nat) :
  k + n <= length l ->
  trace_loop l (seq k n)
    (Spec.even_positions (take k l), Spec.even_positions (take k l))
  = Ok (Spec.even_positions (take (k + n) l),
        Spec.even_positions (take (k + n) l)).
Proof.
  revert k. induction n as [|n IH]; intros k Hlen; cbn [seq trace_loop].
  - by rewrite Nat.add_0_r.
  - destruct (lookup_lt_is_Some_2 l k ltac:(lia)) as [v Hv].
    rewrite (trace_step_eq _ _ _ _ _ Hv), bind_ok.
    replace (k + S n) with (S k + n) by lia.
    rewrite <- (IH (S k)) by lia.
    rewrite (take_S_r l k v Hv), even_positions_snoc.
    rewrite length_take, Nat.min_l by lia.
    by destruct (k mod 2 =? 0).
Qed.

Lemma trace_loop_all (l : list pyfloat) :
  trace_loop l (Py.range (length l)) ([], [])
  = Ok (Spec.even_positions l, Spec.even_positions l).
Proof.
  unfold Py.range.
  pose proof (trace_loop_take l (length l) 0 ltac:(lia)) as H.
  rewrite take_0, Nat.add_0_l, firstn_all in H. exact H.
Qed.

(** The splitter is the decoder followed by taking the values at the
    even positions, twice. *)
Lemma parse_vna_trace_eq (s : string) :
  parse_vna_trace float s
  = l ← parse_vna_frequency float s;
    Ok (Spec.even_positions l, Spec.even_positions l).
Proof.
  unfold parse_vna_trace, parse_vna_frequency.
  destruct (__remove_header s) as [h|e]; [|reflexivity].
  rewrite !bind_ok.
  destruct (__create_array float h) as [a|e]; [|reflexivity].
  rewrite !bind_ok. apply trace_loop_all.
Qed.

End Splitter.

(** C9. Whenever [parse_vna_trace] succeeds its two lists are the same
    list: each is the values at the even positions of the decoded
    sequence, so they have the same length, and element [i] of either
    is element [2 * i] of the decoded sequence: no value at an odd
    position is put in either. *)
Theorem parse_vna_trace_same_lists
    (float : string -> option pyfloat) (s : string)
    (re im : list pyfloat) :
  DataParsing.parse_vna_trace float s = Ok (re, im) ->
  re = im
  /\ length re = length im
  /\ exists decoded,
       DataParsing.parse_vna_frequency float s = Ok decoded
       /\ re = Spec.even_positions decoded
       /\ im = Spec.even_positions decoded
       /\ (forall i, re !! i = decoded !! (2 * i))
       /\ (forall i, im !! i = decoded !! (2 * i)).
Proof.
  rewrite parse_vna_trace_eq.
  destruct (DataParsing.parse_vna_frequency float s) as [decoded|e];
    [|discriminate].
  rewrite bind_ok. intros [= <- <-].
  split; [reflexivity|]. split; [reflexivity|].
  exists decoded. repeat split; intros i; apply even_positions_lookup.
Qed.

Lemma parse_vna_trace_same_lists_witness :
  [Float64.of_Z 1; Float64.of_Z 3; Float64.of_Z 5]
  = [Float64.of_Z 1; Float64.of_Z 3; Float64.of_Z 5]
  /\ length [Float64.of_Z 1; Float64.of_Z 3; Float64.of_Z 5]
     = length [Float64.of_Z 1; Float64.of_Z 3; Float64.of_Z 5]
  /\ exists decoded,
       DataParsing.parse_vna_frequency Float64.of_literal
         "#2201.0,2.0,3.0,4.0,5.0," = Ok decoded
       /\ [Float64.of_Z 1; Float64.of_Z 3; Float64.of_Z 5]
          = Spec.even_positions decoded
       /\ [Float64.of_Z 1; Float64.of_Z 3; Float64.of_Z 5]
          = Spec.even_positions decoded
       /\ (forall i, [Float64.of_Z 1; Float64.of_Z 3; Float64.of_Z 5] !! i
                     = decoded !! (2 * i))
       /\ (forall i, [Float64.of_Z 1; Float64.of_Z 3; Float64.of_Z 5] !! i
                     = decoded !! (2 * i)).
Proof.
  apply (parse_vna_trace_same_lists Float64.of_literal
           "#2201.0,2.0,3.0,4.0,5.0,").
  vm_compute. reflexivity.
Defined.

(** C1, at the trace of the scenario. The response
    [#2161.0,2.0,3.0,4.0,] decodes to [[1.0, 2.0, 3.0, 4.0]], whose odd
    positions hold [[2.0, 4.0]]; [parse_vna_trace] returns
    [[1.0, 3.0]] for the real components and [[1.0, 3.0]] again for the
    imaginary ones. *)
Theorem parse_vna_trace_scenario :
  DataParsing.parse_vna_frequency Float64.of_literal "#2161.0,2.0,3.0,4.0,"
  = Ok [Float64.of_Z 1; Float64.of_Z 2; Float64.of_Z 3; Float64.of_Z 4]
  /\ DataParsing.parse_vna_trace Float64.of_literal "#2161.0,2.0,3.0,4.0,"
     = Ok ([Float64.of_Z 1; Float64.of_Z 3], [Float64.of_Z 1; Float64.of_Z 3])
  /\ Spec.odd_positions
       [Float64.of_Z 1; Float64.of_Z 2; Float64.of_Z 3; Float64.of_Z 4]
     = [Float64.of_Z 2; Float64.of_Z 4].
Proof. repeat split; vm_compute; reflexivity. Qed.

(** ** Programs over the operating system *)

Section Programs.
Import OS.

Lemma run_bind {A B} (f : A -> prog B) (c : prog A) (w : world) :
  run (c ≫= f) w
  = match run c w with
    | (Ok a, w') => run (f a) w'
    | (Raise e, w') => (Raise e, w')
    end.
Proof.
  unfold mbind, prog_bind. revert w.
  induction c as [a | e | k IH | p k IH | p k IH | p k IH | p data k IH];
    intros w; simpl; try reflexivity; try apply IH.
  - destruct (mkdir p w) as [[[]|e] w']; [apply IH | reflexivity].
  - destruct (open_w p w) as [[[]|e] w']; [apply IH | reflexivity].
  - destruct (write_close p data w) as [[[]|e] w']; [apply IH | reflexivity].
Qed.

Lemma run_lift {A} (r : result A) (w : world) : run (lift r) w = (r, w).
Proof. by destruct r. Qed.

(** Running a program is making its calls one after the other. *)
Lemma run_step {A} (c : prog A) (w : world) :
  run c w = run (fst (step c w)) (snd (step c w)).
Proof.
  destruct c as [a | e | k | p k | p k | p k | p data k]; simpl;
    try reflexivity.
  - by destruct (mkdir p w) as [[[]|e] w'].
  - by destruct (open_w p w) as [[[]|e] w'].
  - by destruct (write_close p data w) as [[[]|e] w'].
Qed.

(** A schedule that only lets the first program move leaves the second
    as it is and does not change what the first ends with. *)
Lemma interleave_first_only {A B} (n : nat) (a : prog A) (b : prog B)
    (w : world) :
  snd (fst (interleave (replicate n true) a b w)) = b
  /\ run (fst (fst (interleave (replicate n true) a b w)))
         (snd (interleave (replicate n true) a b w))
     = run a w.
Proof.
  revert a w. induction n as [|n IH]; intros a w; simpl; [done|].
  destruct (step a w) as [a' w'] eqn:Hs.
  destruct (IH a' w') as [Hb Hr]. split; [exact Hb|].
  rewrite Hr, (run_step a w), Hs. reflexivity.
Qed.

Lemma node_at_put (k : list string) (n : node) (w : world) :
  k <> [] -> node_at (put k n w) k = Some n.
Proof.
  intros Hk. destruct k as [|c k]; [done|].
  unfold node_at, put. simpl. apply lookup_insert_eq.
Qed.

Lemma create_ok (k : list string) (n : node) (w w' : world) :
  create k n w = (Ok tt, w') -> w' = put k n w.
Proof.
  unfold create. destruct (node_at w (removelast k)) as [[|c]|];
    intros [= <-]; reflexivity.
Qed.

Lemma create_home (k : list string) (n : node) (w w' : world)
    (r : result unit) :
  create k n w = (r, w') -> home w' = home w.
Proof.
  unfold create. destruct (node_at w (removelast k)) as [[|c]|];
    intros [= _ <-]; reflexivity.
Qed.

Lemma mkdir_home (p : string) (w w' : world) (r : result unit) :
  mkdir p w = (r, w') -> home w' = home w.
Proof.
  unfold mkdir. destruct (node_at w (resolve p)).
  - intros [= _ <-]. reflexivity.
  - apply create_home.
Qed.

(** A directory that is there makes [os.mkdir] raise, whoever made it. *)
Lemma mkdir_exists (p : string) (w : world) :
  path_exists p w = true -> mkdir p w = (Raise FileExistsError, w).
Proof.
  unfold path_exists, mkdir. by destruct (node_at w (resolve p)).
Qed.

Lemma mkdir_creates (p : string) (w w' : world) :
  mkdir p w = (Ok tt, w') -> path_exists p w' = true.
Proof.
  unfold mkdir, path_exists.
  destruct (node_at w (resolve p)) eqn:Hn; [discriminate|].
  intros ->%create_ok.
  destruct (resolve p) as [|c k] eqn:Hk; [reflexivity|].
  by rewrite node_at_put.
Qed.

Lemma run_check_survey_folder (p : string) (w : world) :
  run (DataStorage.__check_survey_folder p) w
  = if path_exists p w then (Ok tt, w) else mkdir p w.
Proof.
  unfold DataStorage.__check_survey_folder. simpl.
  destruct (path_exists p w); simpl; [reflexivity|].
  by destruct (mkdir p w) as [[[]|e] w'].
Qed.

Lemma run_check_main_folder (w : world) :
  run DataStorage.__check_main_folder w
  = let main_folder := home w +:+ "/gpr20_data/" in
    if path_exists main_folder w then (Ok main_folder, w)
    else match mkdir main_folder w with
         | (Ok _, w') => (Ok main_folder, w')
         | (Raise e, w') => (Raise e, w')
         end.
Proof.
  unfold DataStorage.__check_main_folder. simpl.
  destruct (path_exists _ w); simpl; [reflexivity|].
  by destruct (mkdir _ w) as [[[]|e] w'].
Qed.

Lemma check_main_folder_ok (w w' : world) (main_dir : string) :
  run DataStorage.__check_main_folder w = (Ok main_dir, w') ->
  main_dir = home w +:+ "/gpr20_data/" /\ home w' = home w.
Proof.
  rewrite run_check_main_folder. simpl.
  destruct (path_exists _ w); [by intros [= <- <-]|].
  destruct (mkdir _ w) as [[[]|e] w1] eqn:Hm; [|discriminate].
  intros [= <- <-]. split; [reflexivity|]. by apply mkdir_home in Hm.
Qed.

(** A file written with success holds what was written. *)
Lemma write_file_node (p data : string) (w w' : world) :
  run (write_file p data) w = (Ok tt, w') ->
  node_at w' (resolve p) = Some (File data).
Proof.
  unfold write_file. simpl.
  assert (forall w1, resolve p <> [] ->
            node_at w1 (resolve p) = Some (File "") ->
            write_close p data w1 = (Ok tt, put (resolve p) (File data) w1))
    as Hwrite.
  { intros w1 _ Hn. unfold write_close. by rewrite Hn. }
  unfold open_w. destruct (node_at w (resolve p)) as [[|c]|] eqn:Hn.
  - discriminate.
  - assert (resolve p <> []) as Hk.
    { intros Hk. rewrite Hk in Hn. discriminate. }
    rewrite (Hwrite _ Hk (node_at_put _ _ _ Hk)).
    intros [= <-]. by apply node_at_put.
  - assert (resolve p <> []) as Hk.
    { intros Hk. rewrite Hk in Hn. discriminate. }
    destruct (create (resolve p) (File "") w) as [[[]|e] w1] eqn:Hc;
      [|discriminate].
    apply create_ok in Hc as ->.
    rewrite (Hwrite _ Hk (node_at_put _ _ _ Hk)).
    intros [= <-]. by apply node_at_put.
Qed.

End Programs.

(** ** The record builder *)

Section RecordBuilder.
Import DataStorage.


Lemma triples_length (vf re im : list pyfloat) :
  length (Spec.triples vf re im)
  = Nat.min (length vf) (Nat.min (length re) (length im)).
Proof.
  revert re im. induction vf as [|f vf IH]; intros re im; [reflexivity|].
  destruct re as [|r re], im as [|i im]; simpl; try reflexivity.
  by rewrite IH.
Qed.

(** The loop from index [k] on, [n] turns: it pairs the values by
    position, and raises at the first index past the end of the real
    or the imaginary list. *)
Lemma data_loop_from (vf re im : list pyfloat) (n k : nat)
    (acc : list data_dict) :
  k + n <= length vf -> k <= length re -> k <= length im ->
  data_loop vf re im (seq k n) acc
  = if (k + n <=? length re) && (k + n <=? length im)
    then Ok (acc ++ Spec.triples (take n (drop k vf)) (drop k re) (drop k im))
    else Raise IndexError.
Proof.
  revert k acc. induction n as [|n IH]; intros k acc Hvf Hre Him;
    cbn [seq data_loop].
  - rewrite Nat.add_0_r.
    destruct (Nat.leb_spec k (length re)); [|lia].
    destruct (Nat.leb_spec k (length im)); [|lia].
    simpl. by rewrite app_nil_r.
  - destruct (lookup_lt_is_Some_2 vf k ltac:(lia)) as [f Hf].
    unfold data_step. rewrite (getitem_lookup _ _ _ Hf), bind_ok.
    destruct (Nat.leb_spec (k + S n) (length re)) as [Hr|Hr].
    + destruct (lookup_lt_is_Some_2 re k ltac:(lia)) as [r Hr'].
      rewrite (getitem_lookup _ _ _ Hr'), bind_ok.
      destruct (Nat.leb_spec (k + S n) (length im)) as [Hi|Hi].
      * destruct (lookup_lt_is_Some_2 im k ltac:(lia)) as [i Hi'].
        rewrite (getitem_lookup _ _ _ Hi'), !bind_ok.
        rewrite (IH (S k)) by lia.
        destruct (Nat.leb_spec (S k + n) (length re)); [|lia].
        destruct (Nat.leb_spec (S k + n) (length im)); [|lia].
        rewrite (drop_S vf f k Hf), (drop_S re r k Hr'), (drop_S im i k Hi').
        simpl. by rewrite <- app_assoc.
      * simpl. destruct (le_lt_dec (length im) k) as [Hk|Hk].
        -- by rewrite (getitem_out_of_range im k Hk).
        -- destruct (lookup_lt_is_Some_2 im k Hk) as [i Hi'].
           rewrite (getitem_lookup _ _ _ Hi'), !bind_ok.
           rewrite (IH (S k)) by lia.
           destruct (Nat.leb_spec (S k + n) (length im)); [lia|].
           by rewrite andb_false_r.
    + simpl. destruct (le_lt_dec (length re) k) as [Hk|Hk].
      * by rewrite (getitem_out_of_range re k Hk).
      * destruct (lookup_lt_is_Some_2 re k Hk) as [r Hr'].
        rewrite (getitem_lookup _ _ _ Hr'), bind_ok.
        destruct (le_lt_dec (length im) k) as [Hk'|Hk'].
        -- by rewrite (getitem_out_of_range im k Hk').
        -- destruct (lookup_lt_is_Some_2 im k Hk') as [i Hi'].
           rewrite (getitem_lookup _ _ _ Hi'), !bind_ok.
           rewrite (IH (S k)) by lia.
           by destruct (Nat.leb_spec (S k + n) (length re)); [lia|].
Qed.

Lemma data_loop_all (vf re im : list pyfloat) :
  data_loop vf re im (Py.range (length vf)) []
  = if (length vf <=? length re) && (length vf <=? length im)
    then Ok (Spec.triples vf re im)
    else Raise IndexError.
Proof.
  unfold Py.range.
  rewrite (data_loop_from vf re im (length vf) 0 []) by lia.
  by rewrite !drop_0, firstn_all.
Qed.

End RecordBuilder.



(** C6. When parsing the frequency response or the trace response
    fails, [process_data] ends with that exception before it makes any
    operating-system call: the exception reaches the caller and the
    file system is as it was, with no directory made and no file
    written. *)
Theorem process_data_parse_failure
    (float : string -> option pyfloat)
    (json_dumps : DataStorage.file_dict -> string) (survey_dir : string)
    (x y z h : pyfloat) (ts sid smp : string) (vna_freq vna_trace : string) :
  is_raise (DataParsing.parse_vna_frequency float vna_freq) = true
  \/ is_raise (DataParsing.parse_vna_trace float vna_trace) = true ->
  exists e,
    (DataParsing.parse_vna_frequency float vna_freq = Raise e
     \/ DataParsing.parse_vna_trace float vna_trace = Raise e)
    /\ DataProcessing.process_data float json_dumps survey_dir
         x y z h ts sid smp vna_freq vna_trace = OS.Throw e
    /\ forall w,
         OS.run (DataProcessing.process_data float json_dumps survey_dir
                   x y z h ts sid smp vna_freq vna_trace) w
         = (Raise e, w).
Proof.
  intros H. unfold DataProcessing.process_data.
  destruct (DataParsing.parse_vna_frequency float vna_freq) as [vf|e].
  - destruct H as [H|H]; [discriminate|].
    destruct (DataParsing.parse_vna_trace float vna_trace) as [t|e];
      [discriminate|].
    exists e. split; [by right|]. split; reflexivity.
  - exists e. split; [by left|]. split; reflexivity.
Qed.

Lemma process_data_parse_failure_witness :
  exists e,
    (DataParsing.parse_vna_frequency Float64.of_literal "#x1.0," = Raise e
     \/ DataParsing.parse_vna_trace Float64.of_literal "#2161.0,2.0,3.0,4.0,"
        = Raise e)
    /\ DataProcessing.process_data Float64.of_literal Json.dumps "survey1"
         Sample.f1_5 Sample.f2_25 Sample.f0_0 Sample.f3_1 "t" "s" "i"
         "#x1.0," "#2161.0,2.0,3.0,4.0," = OS.Throw e
    /\ forall w,
         OS.run (DataProcessing.process_data Float64.of_literal Json.dumps
                   "survey1"
                   Sample.f1_5 Sample.f2_25 Sample.f0_0 Sample.f3_1
                   "t" "s" "i" "#x1.0," "#2161.0,2.0,3.0,4.0,") w
         = (Raise e, w).
Proof.
  apply (process_data_parse_failure Float64.of_literal Json.dumps "survey1"
           Sample.f1_5 Sample.f2_25 Sample.f0_0 Sample.f3_1 "t" "s" "i"
           "#x1.0," "#2161.0,2.0,3.0,4.0,").
  left. vm_compute. reflexivity.
Defined.

(** ** The file name *)

Lemma string_length_append (s t : string) :
  String.length (s +:+ t) = String.length s + String.length t.
Proof. induction s as [|c s IH]; simpl; [reflexivity | by rewrite IH]. Qed.

Lemma zeros_length (n : nat) : String.length (Format.zeros n) = n.
Proof. induction n as [|n IH]; simpl; [reflexivity | by rewrite IH]. Qed.

(** The zero padding brings a shorter text to six characters and
    leaves a longer one as it is. *)
Lemma format_06_2f_length (x : pyfloat) :
  String.length (Format.format_06_2f x)
  = Nat.max 6 (String.length (Format.format_2f x)).
Proof.
  unfold Format.format_06_2f, Format.format_2f.
  destruct (Format.parts x) as [sign body].
  rewrite !string_length_append, zeros_length. lia.
Qed.

Lemma digit_char_is_digit (d : Z) :
  (0 <= d <= 9)%Z -> Py.is_digit (Format.digit_char d) = true.
Proof.
  intros H. unfold Format.digit_char.
  assert (Z.to_nat d <= 9) as Hn by lia.
  revert Hn. generalize (Z.to_nat d). intros n Hn.
  do 10 (destruct n as [|n]; [reflexivity|]). lia.
Qed.

Lemma fixed2_shape (h : Z) :
  exists (n : N) (d1 d2 : ascii),
    Format.fixed2 h = pretty n +:+ "." +:+ String d1 (String d2 EmptyString)
    /\ Py.is_digit d1 = true /\ Py.is_digit d2 = true.
Proof.
  exists (Z.to_N (h / 100)), (Format.digit_char (h mod 100 / 10)),
    (Format.digit_char ((h mod 100) mod 10)).
  split; [reflexivity|].
  split; apply digit_char_is_digit.
  - pose proof (Z.mod_pos_bound h 100 ltac:(lia)).
    split; [apply Z.div_pos; lia|].
    apply Z.lt_succ_r, Z.div_lt_upper_bound; lia.
  - pose proof (Z.mod_pos_bound (h mod 100) 10 ltac:(lia)). lia.
Qed.

Lemma fixed2_two_decimals (h : Z) : Spec.two_decimals (Format.fixed2 h).
Proof. exact (fixed2_shape h). Qed.

(** Every float is written as [Spec.coordinate_text] says. *)
Lemma format_06_2f_text (x : pyfloat) :
  Spec.coordinate_text x (Format.format_06_2f x).
Proof.
  unfold Spec.coordinate_text.
  assert (6 <= String.length (Format.format_06_2f x)) as Hlen.
  { rewrite format_06_2f_length. lia. }
  revert Hlen. unfold Format.format_06_2f.
  destruct x as [s|s| |s m e]; simpl Format.parts; cbn iota; intros Hlen.
  - exists (Format.sign_text s), (Format.fixed2 0).
    split; [reflexivity|]. split; [destruct s; auto|].
    split; [apply fixed2_two_decimals | exact Hlen].
  - exists (Format.sign_text s), "inf".
    split; [reflexivity|]. split; [destruct s; auto|].
    split; [simpl; auto | exact Hlen].
  - exists "", "nan". repeat split; simpl; auto.
  - exists (Format.sign_text s), (Format.fixed2 (Format.hundredths m e)).
    split; [reflexivity|]. split; [destruct s; auto|].
    split; [apply fixed2_two_decimals | exact Hlen].
Qed.

(** What a successful [store_data] has written, and where. *)
Lemma store_data_ok (json_dumps : DataStorage.file_dict -> string)
    (survey_dir : string) (x y z h : pyfloat) (ts sid smp : string)
    (vf re im : list pyfloat) (w w' : OS.world) :
  OS.run (DataStorage.store_data json_dumps survey_dir x y z h ts sid smp
            vf re im) w = (Ok tt, w') ->
  OS.node_at w'
    (OS.resolve (((OS.home w +:+ "/gpr20_data/") +:+ "/" +:+ survey_dir)
                 +:+ "/" +:+ DataStorage.file_name x y z))
  = Some (OS.File (json_dumps
      {| DataStorage.x_coord := x; DataStorage.y_coord := y;
         DataStorage.z_coord := z; DataStorage.antennae_height := h;
         DataStorage.timestamp := ts; DataStorage.survey_id := sid;
         DataStorage.sample_id := smp;
         DataStorage.data := Spec.triples vf re im |})).
Proof.
  unfold DataStorage.store_data.
  rewrite run_bind, run_lift, data_loop_all.
  destruct ((length vf <=? length re) && (length vf <=? length im));
    [|discriminate].
  rewrite run_bind.
  destruct (OS.run DataStorage.__check_main_folder w)
    as [[main_dir|e] w1] eqn:Hmain; [|discriminate].
  apply check_main_folder_ok in Hmain as [-> Hhome].
  rewrite run_bind.
  destruct (OS.run (DataStorage.__check_survey_folder _) w1)
    as [[[]|e] w2] eqn:Hsurvey; [|discriminate].
  intros Hwrite. apply write_file_node in Hwrite.
  exact Hwrite.
Qed.

(** ** The digits that [pretty] writes *)

Lemma pretty_N_go_length_ge (n : N) (s : string) :
  String.length s <= String.length (pretty_N_go n s).
Proof.
  revert s. induction (N.lt_wf_0 n) as [n _ IH]; intros s.
  assert (n = 0 \/ 0 < n)%N as [->|Hpos] by lia.
  - by rewrite pretty_N_go_0.
  - rewrite pretty_N_go_step by done.
    etrans; [|apply IH; by apply N.div_lt]. simpl. lia.
Qed.

Lemma pretty_N_go_length_below (k : nat) (n : N) (s : string) :
  (n < 10 ^ N.of_nat k)%N ->
  String.length (pretty_N_go n s) <= k + String.length s.
Proof.
  revert n s. induction k as [|k IH]; intros n s Hn.
  - assert (n = 0)%N as -> by (simpl in Hn; lia).
    by rewrite pretty_N_go_0.
  - assert (n = 0 \/ 0 < n)%N as [->|Hpos] by lia.
    { rewrite pretty_N_go_0. lia. }
    rewrite pretty_N_go_step by done.
    rewrite Nat2N.inj_succ, N.pow_succ_r' in Hn.
    etrans; [apply IH|simpl; lia].
    apply N.Div0.div_lt_upper_bound. lia.
Qed.

Lemma pretty_N_go_length_from (k : nat) (n : N) (s : string) :
  (10 ^ N.of_nat k <= n)%N ->
  k + 1 + String.length s <= String.length (pretty_N_go n s).
Proof.
  revert n s. induction k as [|k IH]; intros n s Hn.
  - assert (0 < n)%N as Hpos by (simpl in Hn; lia).
    rewrite pretty_N_go_step by done.
    etrans; [|apply pretty_N_go_length_ge]. simpl. lia.
  - rewrite Nat2N.inj_succ, N.pow_succ_r' in Hn.
    assert (0 < n)%N as Hpos.
    { pose proof (N.pow_nonzero 10 (N.of_nat k) ltac:(lia)). lia. }
    rewrite pretty_N_go_step by done.
    etrans; [|apply IH]; [simpl; lia|].
    apply N.div_le_lower_bound; lia.
Qed.

(** A number below [10^k] is written with at most [k] digits, and one
    from [10^k] on with more ([k >= 1]). *)
Lemma pretty_N_length (k : nat) (n : N) :
  1 <= k ->
  (String.length (pretty n) <=? k) = (n <? 10 ^ N.of_nat k)%N.
Proof.
  intros Hk. unfold pretty, pretty_N.
  case_decide as Hn.
  - subst. simpl String.length.
    pose proof (N.pow_nonzero 10 (N.of_nat k) ltac:(lia)).
    destruct (N.ltb_spec 0 (10 ^ N.of_nat k)); [|lia].
    by apply Nat.leb_le.
  - destruct (N.ltb_spec n (10 ^ N.of_nat k)) as [Hlt|Hge].
    + apply Nat.leb_le.
      pose proof (pretty_N_go_length_below k n "" Hlt). simpl in *. lia.
    + apply Nat.leb_gt.
      pose proof (pretty_N_go_length_from k n "" Hge). simpl in *. lia.
Qed.

(** ** The text of a coordinate *)

Lemma fill_zeros (n : nat) : Field.fill n = Format.zeros n.
Proof.
  unfold Field.fill. induction n as [|n IH]; [reflexivity|].
  simpl. by rewrite IH.
Qed.

Lemma digit_char_pretty (d : Z) :
  (0 <= d <= 9)%Z -> Format.digit_char d = pretty_N_char (Z.to_N d).
Proof.
  intros H.
  assert (d = 0 \/ d = 1 \/ d = 2 \/ d = 3 \/ d = 4 \/ d = 5 \/ d = 6
          \/ d = 7 \/ d = 8 \/ d = 9)%Z as Hd by lia.
  repeat (destruct Hd as [->|Hd]; [reflexivity|]). by subst.
Qed.

Lemma fixed2_decimals (h : Z) : Format.fixed2 h = Field.decimals h.
Proof.
  unfold Format.fixed2, Field.decimals, Format.two_digits.
  pose proof (Z.mod_pos_bound h 100 ltac:(lia)) as Hm.
  assert (h mod 100 mod 10 = h mod 10)%Z as E.
  { Z.div_mod_to_equations. lia. }
  rewrite !digit_char_pretty, E; [reflexivity| |].
  - pose proof (Z.mod_pos_bound (h mod 100) 10 ltac:(lia)). lia.
  - Z.div_mod_to_equations. lia.
Qed.

(** Rounding to the nearest, ties to the even one. *)
Lemma round_half_even_nearest (num den : Z) :
  (0 < den)%Z ->
  (2 * Z.abs (num - Format.round_half_even num den * den) <= den)%Z
  /\ ((2 * Z.abs (num - Format.round_half_even num den * den))%Z = den ->
      Z.even (Format.round_half_even num den) = true).
Proof.
  intros Hden. unfold Format.round_half_even.
  pose proof (Z.div_mod num den ltac:(lia)) as Hdm.
  pose proof (Z.mod_pos_bound num den Hden) as Hr.
  set (q := (num / den)%Z) in *. set (r := (num mod den)%Z) in *.
  assert (num - q * den = r)%Z as E1 by lia.
  assert (num - (q + 1) * den = r - den)%Z as E2 by lia.
  destruct (Z.compare_spec (2 * r) den) as [Heq|Hlt|Hgt].
  - destruct (Z.even q) eqn:Hq.
    + rewrite E1. split; [lia | done].
    + rewrite E2. split; [lia|]. intros _.
      rewrite Z.even_add, Hq. reflexivity.
  - rewrite E1. split; lia.
  - rewrite E2. split; lia.
Qed.

Lemma hundredths_nearest (m : positive) (e : Z) :
  Field.nearest_hundredths m e (Format.hundredths m e).
Proof.
  unfold Field.nearest_hundredths, Format.hundredths. cbv zeta.
  destruct (Z.leb_spec 0 e) as [He|He].
  - rewrite (Z.max_r 0 e), (Z.max_l 0 (- e)) by lia.
    change (2 ^ 0)%Z with 1%Z.
    replace (Z.pos m * 100 * 2 ^ e - Z.pos m * 2 ^ e * 100 * 1)%Z
      with 0%Z by ring.
    split; [simpl; lia | simpl; lia].
  - rewrite (Z.max_l 0 e), (Z.max_r 0 (- e)) by lia.
    change (2 ^ 0)%Z with 1%Z. rewrite Z.mul_1_r.
    apply round_half_even_nearest. apply Z.pow_pos_nonneg; lia.
Qed.

Lemma nearest_hundredths_unique (m : positive) (e : Z) (h1 h2 : Z) :
  Field.nearest_hundredths m e h1 -> Field.nearest_hundredths m e h2 ->
  h1 = h2.
Proof.
  unfold Field.nearest_hundredths. cbv zeta.
  set (num := (Z.pos m * 100 * 2 ^ Z.max 0 e)%Z).
  set (den := (2 ^ Z.max 0 (- e))%Z).
  assert (0 < den)%Z as Hden by (apply Z.pow_pos_nonneg; lia).
  intros [B1 T1] [B2 T2].
  assert (h1 = h2 \/ h2 = h1 + 1 \/ h1 = h2 + 1)%Z as [E|[E|E]] by nia.
  - exact E.
  - subst h2.
    assert (2 * Z.abs (num - h1 * den) = den)%Z as E1 by nia.
    assert (2 * Z.abs (num - (h1 + 1) * den) = den)%Z as E2 by nia.
    specialize (T1 E1). specialize (T2 E2).
    rewrite Z.even_add, T1 in T2. discriminate.
  - subst h1.
    assert (2 * Z.abs (num - h2 * den) = den)%Z as E2 by nia.
    assert (2 * Z.abs (num - (h2 + 1) * den) = den)%Z as E1 by nia.
    specialize (T1 E1). specialize (T2 E2).
    rewrite Z.even_add, T2 in T1. discriminate.
Qed.

Lemma hundredths_nonneg (m : positive) (e : Z) :
  (0 <= Format.hundredths m e)%Z.
Proof.
  unfold Format.hundredths. destruct (Z.leb_spec 0 e) as [He|He].
  - pose proof (Z.pow_pos_nonneg 2 e ltac:(lia) He). nia.
  - unfold Format.round_half_even.
    assert (0 < 2 ^ (- e))%Z as Hden by (apply Z.pow_pos_nonneg; lia).
    pose proof (Z.div_pos (Z.pos m * 100) (2 ^ (- e)) ltac:(lia) Hden).
    destruct (_ ?= _)%Z; [destruct (Z.even _)|..]; lia.
Qed.

(** The text the code formats is the text of the value, and no other
    text is. *)
Lemma format_06_2f_is_text (x : pyfloat) (t : string) :
  Field.text x t <-> t = Format.format_06_2f x.
Proof.
  split.
  - intros Ht. destruct Ht as [s m e h Hh | s | s |].
    + rewrite (nearest_hundredths_unique _ _ _ _ Hh (hundredths_nearest m e)).
      unfold Format.format_06_2f, Field.padded. simpl Format.parts.
      cbv iota. by rewrite fill_zeros, fixed2_decimals.
    + unfold Field.padded. rewrite fill_zeros. by destruct s.
    + unfold Field.padded. rewrite fill_zeros. by destruct s.
    + reflexivity.
  - intros ->. destruct x as [s|s| |s m e].
    + replace (Format.format_06_2f (S754_zero s))
        with (Field.padded (Field.sign s) "0.00");
        [constructor | by destruct s].
    + replace (Format.format_06_2f (S754_infinity s))
        with (Field.padded (Field.sign s) "inf");
        [constructor | by destruct s].
    + constructor.
    + replace (Format.format_06_2f (S754_finite s m e))
        with (Field.padded (Field.sign s)
                (Field.decimals (Format.hundredths m e))).
      * constructor. apply hundredths_nearest.
      * unfold Format.format_06_2f, Field.padded. simpl Format.parts.
        cbv iota. by rewrite fill_zeros, fixed2_decimals.
Qed.

(** The field has six characters exactly when the digits have room in
    them, and more otherwise. *)
Lemma padded_decimals_length (s : bool) (h : Z) :
  (0 <= h)%Z ->
  (String.length (Field.padded (Field.sign s) (Field.decimals h)) =? 6)
  = Field.fits_six s h.
Proof.
  intros Hh. unfold Field.padded.
  rewrite !string_length_append, fill_zeros, zeros_length.
  unfold Field.decimals. rewrite string_length_append. simpl String.length.
  set (n := Z.to_N (h / 100)).
  assert (h / 100 = Z.of_N n)%Z as Hn.
  { unfold n. rewrite Z2N.id; [reflexivity|]. apply Z.div_pos; lia. }
  pose proof (pretty_N_length 3 n ltac:(lia)) as H3.
  pose proof (pretty_N_length 2 n ltac:(lia)) as H2.
  change (10 ^ N.of_nat 3)%N with 1000%N in H3.
  change (10 ^ N.of_nat 2)%N with 100%N in H2.
  unfold Field.fits_six. destruct s; simpl String.length.
  - destruct (N.ltb_spec n 100) as [Hlt|Hge].
    + apply Nat.leb_le in H2.
      destruct (Z.ltb_spec h 10000) as [_|Hx];
        [apply Nat.eqb_eq; lia|].
      exfalso. Z.div_mod_to_equations. lia.
    + apply Nat.leb_gt in H2.
      destruct (Z.ltb_spec h 10000) as [Hx|_];
        [|apply Nat.eqb_neq; lia].
      exfalso. Z.div_mod_to_equations. lia.
  - destruct (N.ltb_spec n 1000) as [Hlt|Hge].
    + apply Nat.leb_le in H3.
      destruct (Z.ltb_spec h 100000) as [_|Hx];
        [apply Nat.eqb_eq; lia|].
      exfalso. Z.div_mod_to_equations. lia.
    + apply Nat.leb_gt in H3.
      destruct (Z.ltb_spec h 100000) as [Hx|_];
        [|apply Nat.eqb_neq; lia].
      exfalso. Z.div_mod_to_equations. lia.
Qed.

(** C7, as the code has it. The name of the stored file is a function
    of the three coordinates alone: [X], [_Y] and [_Z] each followed by
    the text of the coordinate, then [.json], and a successful
    [store_data] has written its JSON text under that name in the
    survey directory. The text of a number is a minus sign when its
    sign bit is set, then zeros, then the digits of its magnitude
    rounded to the nearest hundredth (to the even one of two equally
    near), two of them after the point. The zeros fill the field to six
    characters and no digit is ever cut: the field has exactly six
    characters when the rounded magnitude is below [1000.00] (below
    [100.00] with a minus sign) and more otherwise. An infinite
    coordinate is written [inf] and a NaN [nan], filled the same way,
    without decimals. Each coordinate has one text only. The
    coordinate [3.1] is written [003.10], and [x=1.5], [y=2.25],
    [z=0.0] give [X001.50_Y002.25_Z000.00.json]. *)
Theorem store_data_file_name
    (json_dumps : DataStorage.file_dict -> string) (survey_dir : string)
    (x y z h : pyfloat) (ts sid smp : string)
    (vf re im : list pyfloat) (w w' : OS.world) :
  OS.run (DataStorage.store_data json_dumps survey_dir x y z h ts sid smp
            vf re im) w = (Ok tt, w') ->
  (exists content,
     OS.node_at w'
       (OS.resolve (((OS.home w +:+ "/gpr20_data/") +:+ "/" +:+ survey_dir)
                    +:+ "/" +:+ DataStorage.file_name x y z))
     = Some (OS.File content))
  /\ (exists tx ty tz,
        Field.text x tx /\ Field.text y ty /\ Field.text z tz
        /\ DataStorage.file_name x y z
           = "X" +:+ tx +:+ "_Y" +:+ ty +:+ "_Z" +:+ tz +:+ ".json")
  /\ (forall c t t', Field.text c t -> Field.text c t' -> t = t')
  /\ (forall c t, Field.text c t -> 6 <= String.length t)
  /\ (forall s m e hs,
        Field.nearest_hundredths m e hs ->
        (0 <= hs)%Z
        /\ (String.length (Field.padded (Field.sign s) (Field.decimals hs))
            =? 6) = Field.fits_six s hs)
  /\ Field.text Sample.f3_1 "003.10"
  /\ DataStorage.file_name Sample.f1_5 Sample.f2_25 Sample.f0_0
     = "X001.50_Y002.25_Z000.00.json".
Proof.
  intros Hrun. split.
  { eexists. exact (store_data_ok _ _ _ _ _ _ _ _ _ _ _ _ _ _ Hrun). }
  split.
  { exists (Format.format_06_2f x), (Format.format_06_2f y),
      (Format.format_06_2f z).
    split; [by apply format_06_2f_is_text|].
    split; [by apply format_06_2f_is_text|].
    split; [by apply format_06_2f_is_text | reflexivity]. }
  split.
  { intros c t t' Ht Ht'.
    apply format_06_2f_is_text in Ht, Ht'. congruence. }
  split.
  { intros c t ->%format_06_2f_is_text.
    rewrite format_06_2f_length. lia. }
  split.
  { intros s m e hs Hh.
    assert (0 <= hs)%Z as Hpos.
    { rewrite (nearest_hundredths_unique _ _ _ _ Hh (hundredths_nearest m e)).
      apply hundredths_nonneg. }
    split; [exact Hpos | by apply padded_decimals_length]. }
  split; [apply format_06_2f_is_text; vm_compute; reflexivity|].
  vm_compute. reflexivity.
Qed.

(** C7 as stated fails: the field is not six characters wide for every
    coordinate, nor always with two decimals. [1234.5] is written
    [1234.50], seven characters, and a NaN is written [000nan]. *)
Lemma coordinate_field_wider_than_six :
  String.length (Format.format_06_2f (Float64.literal "1234.5")) = 7
  /\ DataStorage.file_name (Float64.literal "1234.5") Sample.f2_25
       Sample.f0_0
     = "X1234.50_Y002.25_Z000.00.json"
  /\ DataStorage.file_name S754_nan Sample.f2_25 Sample.f0_0
     = "X000nan_Y002.25_Z000.00.json".
Proof. split; [|split]; vm_compute; reflexivity. Qed.

Lemma store_data_file_name_witness :
  exists content,
    OS.node_at
      (snd (OS.run (DataStorage.store_data Json.dumps "survey1"
                      Sample.f1_5 Sample.f2_25 Sample.f0_0 Sample.f3_1
                      "t" "s" "i"
                      [Float64.of_Z 1] [Float64.of_Z 2] [Float64.of_Z 3])
              Sample.fresh_home))
      ["home"; "gpr20"; "gpr20_data"; "survey1";
       "X001.50_Y002.25_Z000.00.json"]
    = Some (OS.File content).
Proof.
  refine (proj1 (store_data_file_name Json.dumps "survey1"
                   Sample.f1_5 Sample.f2_25 Sample.f0_0 Sample.f3_1
                   "t" "s" "i"
                   [Float64.of_Z 1] [Float64.of_Z 2] [Float64.of_Z 3]
                   Sample.fresh_home _ _)).
  vm_compute. reflexivity.
Defined.

(** ** Directory creation by two writers *)

Lemma mkdir_ok_absent (p : string) (w w' : OS.world) :
  OS.mkdir p w = (Ok tt, w') -> OS.path_exists p w = false.
Proof.
  unfold OS.mkdir, OS.path_exists.
  by destruct (OS.node_at w (OS.resolve p)).
Qed.

(** C8, as the code has it. Let creating the directory succeed from
    the file system [w], giving [w1] (for the main folder: from [wm],
    giving [wm1]). A call that finds the directory at its existence
    check returns with success and changes nothing. A call that found
    no directory at its check and reaches [os.mkdir] once the directory
    is there, in whatever file system [w2], ends with [FileExistsError]:
    nothing swallows it. So of two writers that both check before
    either creates, the one that creates second ends with the
    exception. *)
Theorem directory_check_then_create
    (p : string) (w w1 w2 wm wm1 : OS.world) :
  OS.mkdir p w = (Ok tt, w1) ->
  OS.path_exists p w2 = true ->
  OS.mkdir (OS.home wm +:+ "/gpr20_data/") wm = (Ok tt, wm1) ->
  OS.run (DataStorage.__check_survey_folder p) w1 = (Ok tt, w1)
  /\ OS.run DataStorage.__check_main_folder wm1
     = (Ok (OS.home wm +:+ "/gpr20_data/"), wm1)
  /\ OS.run (fst (OS.step (DataStorage.__check_survey_folder p) w)) w2
     = (Raise FileExistsError, w2)
  /\ OS.interleave [true; false; false; true]
       (DataStorage.__check_survey_folder p)
       (DataStorage.__check_survey_folder p) w
     = (OS.Throw FileExistsError, OS.Ret tt, w1)
  /\ OS.interleave [true; true; false; false; false; true]
       DataStorage.__check_main_folder
       DataStorage.__check_main_folder wm
     = (OS.Throw FileExistsError,
        OS.Ret (OS.home wm +:+ "/gpr20_data/"), wm1).
Proof.
  intros Hmk Hw2 Hmain.
  pose proof (mkdir_ok_absent _ _ _ Hmk) as Habs.
  pose proof (mkdir_creates _ _ _ Hmk) as Hnow.
  pose proof (mkdir_ok_absent _ _ _ Hmain) as Habsm.
  pose proof (mkdir_creates _ _ _ Hmain) as Hnowm.
  pose proof (mkdir_home _ _ _ _ Hmain) as Hhome.
  split; [by rewrite run_check_survey_folder, Hnow|].
  split; [by rewrite run_check_main_folder; simpl; rewrite Hhome, Hnowm|].
  split.
  { simpl. rewrite Habs. simpl. by rewrite (mkdir_exists _ _ Hw2). }
  split.
  - simpl. rewrite Habs. simpl. rewrite Hmk. simpl.
    by rewrite (mkdir_exists _ _ Hnow).
  - simpl. rewrite Habsm. simpl. rewrite Hmain. simpl.
    by rewrite (mkdir_exists _ _ Hnowm).
Qed.

Lemma directory_check_then_create_witness :
  OS.interleave [true; false; false; true]
    (DataStorage.__check_survey_folder "/home/gpr20/gpr20_data//survey1")
    (DataStorage.__check_survey_folder "/home/gpr20/gpr20_data//survey1")
    Sample.with_main_folder
  = (OS.Throw FileExistsError, OS.Ret tt,
     OS.put ["home"; "gpr20"; "gpr20_data"; "survey1"] OS.Dir
       Sample.with_main_folder).
Proof.
  refine (proj1 (proj2 (proj2 (proj2
    (directory_check_then_create "/home/gpr20/gpr20_data//survey1"
       Sample.with_main_folder
       (OS.put ["home"; "gpr20"; "gpr20_data"; "survey1"] OS.Dir
          Sample.with_main_folder)
       (OS.put ["home"; "gpr20"; "gpr20_data"; "survey1"] OS.Dir
          Sample.with_main_folder)
       Sample.fresh_home
       Sample.with_main_folder _ _ _))))).
  - vm_compute. reflexivity.
  - vm_compute. reflexivity.
  - vm_compute. reflexivity.
Defined.

(** C8 as stated fails: two writers ensure the same new survey
    directory, both check before either creates, and the one whose
    [os.mkdir] comes second ends with [FileExistsError]. *)
Lemma concurrent_creation_raises :
  OS.path_exists "/home/gpr20/gpr20_data//survey1" Sample.with_main_folder
  = false
  /\ OS.outcome
       (fst (fst (OS.interleave [true; false; false; true]
          (DataStorage.__check_survey_folder "/home/gpr20/gpr20_data//survey1")
          (DataStorage.__check_survey_folder "/home/gpr20/gpr20_data//survey1")
          Sample.with_main_folder)))
     = Some (Raise FileExistsError)
  /\ OS.outcome
       (snd (fst (OS.interleave [true; false; false; true]
          (DataStorage.__check_survey_folder "/home/gpr20/gpr20_data//survey1")
          (DataStorage.__check_survey_folder "/home/gpr20/gpr20_data//survey1")
          Sample.with_main_folder)))
     = Some (Ok tt).
Proof. split; [|split]; vm_compute; reflexivity. Qed.
(** * Further properties of the code *)

(** ** The decoder: errors, the dropped tail, lengths *)

Lemma string_append_assoc (a b c : string) :
  (a +:+ b) +:+ c = a +:+ (b +:+ c).
Proof.
  induction a as [|x a IH]; [reflexivity|].
  change (String x ((a +:+ b) +:+ c) = String x (a +:+ (b +:+ c))).
  by rewrite IH.
Qed.

Lemma slice_from_length (n : nat) (s : string) :
  String.length (Py.slice_from n s) = String.length s - n.
Proof.
  revert s. induction n as [|n IH]; intros [|c s]; simpl;
    try reflexivity; try lia.
  apply IH.
Qed.

Lemma slice_from_suffix (n : nat) (s : string) :
  exists pre, s = pre +:+ Py.slice_from n s
              /\ String.length pre = Nat.min n (String.length s).
Proof.
  revert s. induction n as [|n IH]; intros s.
  - exists "". split; [by destruct s | reflexivity].
  - destruct s as [|c s]; [by exists ""|].
    destruct (IH s) as (pre & Hs & Hlen).
    exists (String c pre). split.
    + change (String c s = String c (pre +:+ Py.slice_from n s)).
      congruence.
    + simpl. by rewrite Hlen.
Qed.

Lemma int_of_char_ok (c : ascii) (n : nat) :
  Py.int_of_char c = Ok n ->
  Py.is_digit c = true /\ n = nat_of_ascii c - 48 /\ n <= 9.
Proof.
  unfold Py.int_of_char. destruct (Py.is_digit c) eqn:Hd; [|discriminate].
  intros [= <-]. split; [reflexivity|]. split; [reflexivity|].
  unfold Py.is_digit in Hd. apply andb_prop in Hd as [_ Hd].
  apply Nat.leb_le in Hd. lia.
Qed.

Lemma split_no_sep (s : string) :
  Spec.has_comma s = false -> Py.split "," s = [s].
Proof.
  induction s as [|c s IH]; simpl; intros Hc; [reflexivity|].
  apply orb_false_elim in Hc as [Hc Hs].
  by rewrite Hc, (IH Hs).
Qed.

Lemma split_payload_tail (segs : list string) (tail : string) :
  Forall (fun s => Spec.has_comma s = false) segs ->
  Spec.has_comma tail = false ->
  Py.split "," (Spec.payload segs +:+ tail) = segs ++ [tail].
Proof.
  intros Hsegs Htail.
  induction Hsegs as [|s segs Hs _ IH]; [by apply split_no_sep|].
  cbn [Spec.payload]. rewrite !string_append_assoc.
  by rewrite (split_segment s _ Hs), IH.
Qed.

Lemma split_length (s : string) :
  length (Py.split "," s) = S (Shape.count_char "," s).
Proof.
  induction s as [|c s IH]; simpl; [reflexivity|].
  destruct (Ascii.eqb c ","); simpl; [by rewrite IH|].
  destruct (Py.split "," s) as [|w ws]; simpl in *; lia.
Qed.

Lemma comprehension_length {A B} (f : A -> result B) (l : list A)
    (r : list B) :
  Py.comprehension f l = Ok r -> length r = length l.
Proof.
  revert r. induction l as [|x l IH]; intros r; simpl.
  - by intros [= <-].
  - destruct (f x) as [y|e]; [|discriminate]. simpl.
    destruct (Py.comprehension f l) as [ys|e]; [|discriminate].
    simpl. intros [= <-]. simpl. by rewrite (IH ys).
Qed.

Lemma comprehension_py_float_raise (float : string -> option pyfloat)
    (l : list string) (e : exn) :
  Py.comprehension (DataParsing.py_float float) l = Raise e ->
  e = ValueError.
Proof.
  induction l as [|x l IH]; simpl; [discriminate|].
  destruct (float x) as [v|] eqn:Hx.
  - rewrite (py_float_some _ _ _ Hx). simpl.
    destruct (Py.comprehension _ l) as [ys|e']; simpl; [discriminate|].
    intros [= <-]. by apply IH.
  - rewrite (py_float_none _ _ Hx). by intros [= <-].
Qed.

Lemma even_positions_length {A} (l : list A) :
  length (Spec.even_positions l) = (length l + 1) / 2.
Proof.
  induction l as [| y | y z l IH] using list_pair_ind; [reflexivity..|].
  change (length (Spec.even_positions (y :: z :: l)))
    with (S (length (Spec.even_positions l))).
  change (length (y :: z :: l)) with (S (S (length l))).
  replace (S (S (length l)) + 1) with (length l + 1 + 1 * 2) by lia.
  rewrite Nat.div_add by lia. rewrite IH. lia.
Qed.

(** The last value taken from the even positions is the last of the
    list when its length is odd, and the one before it otherwise. *)
Lemma even_positions_last {A} (l : list A) :
  last (Spec.even_positions l)
  = if length l mod 2 =? 1 then last l else last (removelast l).
Proof.
  induction l as [| y | y z l IH] using list_pair_ind; [reflexivity..|].
  change (length (y :: z :: l)) with (S (S (length l))).
  rewrite mod2_succ_succ.
  change (Spec.even_positions (y :: z :: l))
    with (y :: Spec.even_positions l).
  rewrite last_cons, IH.
  destruct l as [|a [|b l]]; [reflexivity..|].
  change (length (a :: b :: l)) with (S (S (length l))).
  rewrite mod2_succ_succ.
  change (removelast (y :: z :: a :: b :: l))
    with (y :: z :: a :: removelast (b :: l)).
  change (removelast (a :: b :: l)) with (a :: removelast (b :: l)).
  assert (forall (x : A) k, is_Some (last (x :: k))) as Hsome.
  { intros x k. rewrite last_cons. destruct (last k); eauto. }
  destruct (length l mod 2 =? 1).
  - change (last (y :: z :: a :: b :: l)) with (last (a :: b :: l)).
    by destruct (Hsome a (b :: l)) as [v ->].
  - change (last (y :: z :: a :: removelast (b :: l)))
      with (last (a :: removelast (b :: l))).
    by destruct (Hsome a (removelast (b :: l))) as [v ->].
Qed.

(** What [__remove_header] does to a response of two characters or
    more with a digit in second place. *)
Lemma remove_header_ok (s r : string) :
  DataParsing.__remove_header s = Ok r ->
  exists c0 c rest,
    s = String c0 (String c rest)
    /\ Py.is_digit c = true
    /\ r = Py.slice_from (nat_of_ascii c - 48) rest.
Proof.
  destruct s as [|c0 [|c rest]]; [discriminate..|].
  unfold DataParsing.__remove_header. simpl.
  destruct (Py.int_of_char c) as [n|e] eqn:Hc; [|discriminate].
  rewrite bind_ok, Nat.add_1_r. simpl. intros [= <-].
  apply int_of_char_ok in Hc as (Hd & -> & _).
  by exists c0, c, rest.
Qed.

(** X1. The decoder raises [IndexError] on every response of fewer
    than two characters and on no other; every other response it
    rejects gets [ValueError]; it raises nothing else, and it accepts
    no response of fewer than two characters. The same holds of
    [parse_vna_trace]. *)
Theorem decoder_exceptions
    (float : string -> option pyfloat) (s : string) :
  match DataParsing.parse_vna_frequency float s with
  | Ok _ => 2 <= String.length s
  | Raise e =>
      (e = IndexError /\ String.length s < 2)
      \/ (e = ValueError /\ 2 <= String.length s)
  end
  /\ match DataParsing.parse_vna_trace float s with
     | Ok _ => 2 <= String.length s
     | Raise e =>
         (e = IndexError /\ String.length s < 2)
         \/ (e = ValueError /\ 2 <= String.length s)
     end.
Proof.
  assert (match DataParsing.parse_vna_frequency float s with
          | Ok _ => 2 <= String.length s
          | Raise e =>
              (e = IndexError /\ String.length s < 2)
              \/ (e = ValueError /\ 2 <= String.length s)
          end) as Hf.
  { destruct s as [|c0 [|c rest]].
    - left. split; [reflexivity | simpl; lia].
    - left. split; [reflexivity | simpl; lia].
    - destruct (DataParsing.parse_vna_frequency float
                  (String c0 (String c rest))) as [l|e] eqn:Hp;
        [simpl; lia|].
      right. split; [|simpl; lia].
      destruct (Py.int_of_char c) as [n|e'] eqn:Hc.
      + rewrite (parse_vna_frequency_cons _ _ _ _ _ Hc) in Hp.
        by apply comprehension_py_float_raise in Hp.
      + unfold DataParsing.parse_vna_frequency, DataParsing.__remove_header
          in Hp.
        simpl in Hp. rewrite Hc in Hp. simpl in Hp.
        unfold Py.int_of_char in Hc.
        destruct (Py.is_digit c); congruence. }
  split; [exact Hf|].
  rewrite parse_vna_trace_eq.
  by destruct (DataParsing.parse_vna_frequency float s).
Qed.

(** X2. Whatever follows the last comma of the payload is dropped
    without being converted: a response whose list lacks the trailing
    comma loses its last value, and text that is no float literal is
    accepted there. *)
Theorem tail_after_last_comma_dropped
    (float : string -> option pyfloat)
    (header : string) (segs : list string) (vals : list pyfloat)
    (tail : string) :
  String.length header <= 9 ->
  Forall (fun s => Spec.has_comma s = false) segs ->
  Forall2 (fun s v => float s = Some v) segs vals ->
  Spec.has_comma tail = false ->
  DataParsing.parse_vna_frequency float
    (Shape.response_with_tail header segs tail) = Ok vals.
Proof.
  intros Hlen Hsegs Hvals Htail. unfold Shape.response_with_tail.
  rewrite (parse_vna_frequency_cons _ _ _ _ _ (int_of_char_digit _ Hlen)).
  rewrite slice_from_append, (split_payload_tail _ _ Hsegs Htail).
  rewrite removelast_last. apply comprehension_forall2.
  eapply Forall2_impl; [exact Hvals|].
  intros s v Hs. by apply py_float_some.
Qed.

Lemma tail_after_last_comma_dropped_witness :
  DataParsing.parse_vna_frequency Float64.of_literal
    (Shape.response_with_tail "11" ["1.0"; "2.0"] "3.0")
  = Ok [Float64.of_Z 1; Float64.of_Z 2].
Proof.
  apply (tail_after_last_comma_dropped Float64.of_literal "11"
           ["1.0"; "2.0"] _ "3.0").
  - simpl. lia.
  - repeat constructor.
  - repeat constructor; vm_compute; reflexivity.
  - reflexivity.
Defined.

(** X3. A decoded list has one value for each comma of the payload:
    its length is the number of commas that follow the header. *)
Theorem decoded_length_is_comma_count
    (float : string -> option pyfloat) (s : string) (vals : list pyfloat) :
  DataParsing.parse_vna_frequency float s = Ok vals ->
  exists rest,
    DataParsing.__remove_header s = Ok rest
    /\ length vals = Shape.count_char "," rest.
Proof.
  unfold DataParsing.parse_vna_frequency.
  destruct (DataParsing.__remove_header s) as [rest|e]; [|discriminate].
  rewrite bind_ok, create_array_eq.
  destruct (Py.comprehension _ _) as [l|e] eqn:Hc; [|discriminate].
  rewrite bind_ok. intros [= <-]. exists rest. split; [reflexivity|].
  rewrite (comprehension_length _ _ _ Hc), removelast_firstn_len.
  rewrite length_take, split_length. lia.
Qed.

Lemma decoded_length_is_comma_count_witness :
  exists rest,
    DataParsing.__remove_header "#2161.0,2.0,3.0,4.0," = Ok rest
    /\ length [Float64.of_Z 1; Float64.of_Z 2; Float64.of_Z 3;
               Float64.of_Z 4]
       = Shape.count_char "," rest.
Proof.
  apply (decoded_length_is_comma_count Float64.of_literal
           "#2161.0,2.0,3.0,4.0,").
  vm_compute. reflexivity.
Defined.

(** X4. When [__remove_header] succeeds the response has a digit [N]
    in second place, and the result is the response without its first
    [2 + N] characters (empty when there are not as many): what
    remains is a suffix of the response, and at most eleven characters
    are removed. *)
Theorem remove_header_drops_prefix (s r : string) :
  DataParsing.__remove_header s = Ok r ->
  exists (c0 c : ascii) (rest : string) (n : nat) (pre : string),
    s = String c0 (String c rest)
    /\ Py.int_of_char c = Ok n /\ n <= 9
    /\ s = pre +:+ r
    /\ String.length pre = Nat.min (2 + n) (String.length s)
    /\ String.length r = String.length s - (2 + n).
Proof.
  intros (c0 & c & rest & -> & Hd & ->)%remove_header_ok.
  destruct (slice_from_suffix (nat_of_ascii c - 48) rest)
    as (pre & Hpre & Hlen).
  exists c0, c, rest, (nat_of_ascii c - 48), (String c0 (String c pre)).
  assert (Py.int_of_char c = Ok (nat_of_ascii c - 48)) as Hc.
  { unfold Py.int_of_char. by rewrite Hd. }
  split; [reflexivity|]. split; [exact Hc|].
  split; [by apply int_of_char_ok in Hc as (_ & _ & Hn)|].
  split.
  { change (String c0 (String c rest)
            = String c0 (String c
                (pre +:+ Py.slice_from (nat_of_ascii c - 48) rest))).
    congruence. }
  split; [simpl; rewrite Hlen; lia|].
  rewrite slice_from_length. simpl. lia.
Qed.

Lemma remove_header_drops_prefix_witness :
  exists (c0 c : ascii) (rest : string) (n : nat) (pre : string),
    "#3abc1.0,2.0," = String c0 (String c rest)
    /\ Py.int_of_char c = Ok n /\ n <= 9
    /\ "#3abc1.0,2.0," = pre +:+ "1.0,2.0,"
    /\ String.length pre = Nat.min (2 + n) (String.length "#3abc1.0,2.0,")
    /\ String.length "1.0,2.0," = String.length "#3abc1.0,2.0," - (2 + n).
Proof.
  apply (remove_header_drops_prefix "#3abc1.0,2.0," "1.0,2.0,").
  reflexivity.
Defined.

(** X5. [parse_vna_trace] fails exactly when the decoder fails on the
    same response, with the same exception: its loop never raises. When
    the decoder gives [n] values each of the two lists has
    [(n + 1) / 2] of them, so the last value of a trace of odd length
    is kept, in both lists. *)
Theorem parse_vna_trace_follows_decoder
    (float : string -> option pyfloat) (s : string) :
  match DataParsing.parse_vna_frequency float s,
        DataParsing.parse_vna_trace float s with
  | Ok decoded, Ok (re, im) =>
      length re = (length decoded + 1) / 2
      /\ length im = (length decoded + 1) / 2
      /\ last re = (if length decoded mod 2 =? 1 then last decoded
                    else last (removelast decoded))
      /\ last im = last re
  | Raise e, Raise e' => e = e'
  | _, _ => False
  end.
Proof.
  rewrite parse_vna_trace_eq.
  destruct (DataParsing.parse_vna_frequency float s) as [decoded|e];
    [|reflexivity].
  rewrite bind_ok, even_positions_length.
  split; [reflexivity|]. split; [reflexivity|].
  split; [apply even_positions_last | reflexivity].
Qed.

(** ** Directories and files: what the calls change *)

Lemma put_put (k : list string) (n1 n2 : OS.node) (w : OS.world) :
  OS.put k n2 (OS.put k n1 w) = OS.put k n2 w.
Proof. unfold OS.put. simpl. by rewrite insert_insert_eq. Qed.

Lemma put_same (k : list string) (n : OS.node) (w : OS.world) :
  k <> [] -> OS.node_at w k = Some n -> OS.put k n w = w.
Proof.
  intros Hk Hn. destruct w as [h m]. unfold OS.put. simpl. f_equal.
  apply insert_id. destruct k; [done | exact Hn].
Qed.

Lemma node_at_put_ne (k k' : list string) (n : OS.node) (w : OS.world) :
  k <> k' -> OS.node_at (OS.put k n w) k' = OS.node_at w k'.
Proof.
  intros Hk. destruct k' as [|c k']; [reflexivity|].
  unfold OS.node_at, OS.put. simpl. by apply lookup_insert_ne.
Qed.

Lemma node_at_put_cases (k k' : list string) (n : OS.node) (w : OS.world) :
  k <> [] ->
  OS.node_at (OS.put k n w) k' = if decide (k' = k) then Some n
                                  else OS.node_at w k'.
Proof.
  intros Hk. case_decide as Hkk.
  - subst. by apply node_at_put.
  - apply node_at_put_ne. congruence.
Qed.

Lemma path_exists_put (p : string) (k : list string) (n : OS.node)
    (w : OS.world) :
  k <> [] ->
  OS.path_exists p w = true -> OS.path_exists p (OS.put k n w) = true.
Proof.
  intros Hk. unfold OS.path_exists. rewrite (node_at_put_cases _ _ _ _ Hk).
  case_decide; [done|]. by destruct (OS.node_at w (OS.resolve p)).
Qed.

Lemma node_at_absent_not_root (w : OS.world) (k : list string) :
  OS.node_at w k <> Some OS.Dir -> k <> [].
Proof. intros H ->. by apply H. Qed.

(** [os.mkdir] either creates the directory where nothing was and the
    parent is a directory, or raises and changes nothing. *)
Lemma mkdir_cases (p : string) (w : OS.world) :
  (OS.node_at w (OS.resolve p) = None
   /\ OS.node_at w (removelast (OS.resolve p)) = Some OS.Dir
   /\ OS.mkdir p w = (Ok tt, OS.put (OS.resolve p) OS.Dir w))
  \/ (exists e, OS.mkdir p w = (Raise e, w)
       /\ ((e = FileExistsError /\ OS.path_exists p w = true)
           \/ (OS.path_exists p w = false
               /\ (e = FileNotFoundError \/ e = NotADirectoryError)))).
Proof.
  unfold OS.mkdir, OS.path_exists, OS.create.
  destruct (OS.node_at w (OS.resolve p)) as [n|]; [right; eauto 8|].
  destruct (OS.node_at w (removelast (OS.resolve p))) as [[|c]|];
    [left; auto | right; eauto 8 | right; eauto 8].
Qed.

(** The sequential outcome of the two folder checks. *)
Lemma ensure_dir_ensured (p : string) (w : OS.world) :
  Shape.ensured p w
    (fst (if OS.path_exists p w then (Ok tt, w) else OS.mkdir p w))
    (snd (if OS.path_exists p w then (Ok tt, w) else OS.mkdir p w)).
Proof.
  destruct (OS.path_exists p w) eqn:Hex; simpl; [auto|].
  destruct (mkdir_cases p w) as [(Hn & Hp & ->) | (e & -> & He)]; simpl.
  - split; [|auto].
    assert (OS.resolve p <> []) as Hk by (intros Hk; by rewrite Hk in Hn).
    unfold OS.path_exists. by rewrite node_at_put.
  - split; [reflexivity|]. split; [exact Hex|].
    destruct He as [[_ He] | [_ He]]; [congruence | exact He].
Qed.

(** [open(p, 'w')] followed by the write: the file gets the text when
    it was a file or was absent under a directory; otherwise the
    [open] raises and nothing changes. *)
Lemma run_write_file (p data : string) (w : OS.world) :
  OS.run (OS.write_file p data) w
  = match OS.node_at w (OS.resolve p) with
    | Some OS.Dir => (Raise IsADirectoryError, w)
    | Some (OS.File _) => (Ok tt, OS.put (OS.resolve p) (OS.File data) w)
    | None =>
        match OS.node_at w (removelast (OS.resolve p)) with
        | Some OS.Dir => (Ok tt, OS.put (OS.resolve p) (OS.File data) w)
        | Some (OS.File _) => (Raise NotADirectoryError, w)
        | None => (Raise FileNotFoundError, w)
        end
    end.
Proof.
  unfold OS.write_file. simpl. unfold OS.open_w, OS.create.
  destruct (OS.node_at w (OS.resolve p)) as [[|c]|] eqn:Hn; [reflexivity| |].
  - assert (OS.resolve p <> []) as Hk by (intros Hk; by rewrite Hk in Hn).
    unfold OS.write_close. rewrite (node_at_put _ _ _ Hk). simpl.
    by rewrite put_put.
  - assert (OS.resolve p <> []) as Hk by (intros Hk; by rewrite Hk in Hn).
    destruct (OS.node_at w (removelast (OS.resolve p))) as [[|c]|];
      [|reflexivity..].
    unfold OS.write_close. rewrite (node_at_put _ _ _ Hk). simpl.
    by rewrite put_put.
Qed.

(** [store_data] step by step. *)
Lemma run_store_data (json_dumps : DataStorage.file_dict -> string)
    (survey_dir : string) (x y z h : pyfloat) (ts sid smp : string)
    (vf re im : list pyfloat) (w : OS.world) :
  OS.run (DataStorage.store_data json_dumps survey_dir x y z h ts sid smp
            vf re im) w
  = if Shape.fits vf re im then
      match OS.run DataStorage.__check_main_folder w with
      | (Ok main_dir, w1) =>
          match OS.run (DataStorage.__check_survey_folder
                          (main_dir +:+ "/" +:+ survey_dir)) w1 with
          | (Ok _, w2) =>
              OS.run (OS.write_file
                        ((main_dir +:+ "/" +:+ survey_dir) +:+ "/" +:+
                         DataStorage.file_name x y z)
                        (json_dumps
                           (Shape.record x y z h ts sid smp vf re im))) w2
          | (Raise e, w2) => (Raise e, w2)
          end
      | (Raise e, w1) => (Raise e, w1)
      end
    else (Raise IndexError, w).
Proof.
  unfold DataStorage.store_data, Shape.fits.
  rewrite run_bind, run_lift, data_loop_all.
  destruct ((length vf <=? length re) && (length vf <=? length im));
    [|reflexivity].
  rewrite run_bind.
  destruct (OS.run DataStorage.__check_main_folder w) as [[main_dir|e] w1];
    [|reflexivity].
  rewrite run_bind.
  by destruct (OS.run (DataStorage.__check_survey_folder _) w1)
    as [[[]|e] w2].
Qed.

Lemma run_check_main_folder_cases (w : OS.world) :
  exists r w',
    (if OS.path_exists (OS.home w +:+ "/gpr20_data/") w then (Ok tt, w)
     else OS.mkdir (OS.home w +:+ "/gpr20_data/") w) = (r, w')
    /\ Shape.ensured (OS.home w +:+ "/gpr20_data/") w r w'
    /\ OS.home w' = OS.home w
    /\ OS.run DataStorage.__check_main_folder w
       = (match r with
          | Ok _ => Ok (OS.home w +:+ "/gpr20_data/")
          | Raise e => Raise e
          end, w').
Proof.
  pose proof (ensure_dir_ensured (OS.home w +:+ "/gpr20_data/") w) as He.
  rewrite run_check_main_folder. cbv zeta.
  destruct (OS.path_exists (OS.home w +:+ "/gpr20_data/") w) eqn:Hex.
  - exists (Ok tt), w. auto.
  - destruct (OS.mkdir (OS.home w +:+ "/gpr20_data/") w) as [r w'] eqn:Hm.
    exists r, w'. split; [reflexivity|]. split; [exact He|].
    split; [by apply mkdir_home in Hm|]. by destruct r as [[]|e].
Qed.

(** The proof that a string is a portable name or path, by
    evaluation. *)
Ltac portable_name :=
  split; [reflexivity|];
  split; [discriminate|]; split; [discriminate|];
  split; [discriminate | simpl; lia].

Ltac portable_names :=
  repeat (constructor; [portable_name|]); constructor.

Ltac portable_path names :=
  exists names; split; [discriminate|];
  split; [portable_names | reflexivity].

Ltac portable_survey_path names :=
  split; [portable_path names|];
  split; [portable_name | simpl; lia].





(** ** What [store_data] may change *)

Lemma grown_refl (dirs : list (list string)) (file : list string)
    (w : OS.world) :
  Shape.grown dirs file w w.
Proof. split; auto. Qed.

Lemma grown_trans (dirs : list (list string)) (file : list string)
    (w w1 w2 : OS.world) :
  Shape.grown dirs file w w1 -> Shape.grown dirs file w1 w2 ->
  Shape.grown dirs file w w2.
Proof.
  intros [Hh1 H1] [Hh2 H2]. split; [congruence|]. intros k.
  destruct (H1 k) as [E1 | [(N1 & D1 & S1) | (F1 & N1 & c1 & S1)]],
    (H2 k) as [E2 | [(N2 & D2 & S2) | (F2 & N2 & c2 & S2)]].
  - left. congruence.
  - right. left. rewrite <- E1. auto.
  - right. right. rewrite <- E1. eauto.
  - right. left. rewrite E2. auto.
  - congruence.
  - congruence.
  - right. right. rewrite E2. eauto.
  - congruence.
  - right. right. eauto.
Qed.

Lemma grown_new_dir (dirs : list (list string)) (file : list string)
    (k : list string) (w : OS.world) :
  OS.node_at w k = None -> k ∈ dirs ->
  Shape.grown dirs file w (OS.put k OS.Dir w).
Proof.
  intros Hn Hk. split; [reflexivity|]. intros k'.
  assert (k <> []) as Hne by (intros ->; discriminate).
  rewrite (node_at_put_cases _ _ _ _ Hne). case_decide; subst; auto.
Qed.

Lemma grown_file (dirs : list (list string)) (file : list string)
    (data : string) (w : OS.world) :
  OS.node_at w file <> Some OS.Dir ->
  Shape.grown dirs file w (OS.put file (OS.File data) w).
Proof.
  intros Hn. split; [reflexivity|]. intros k'.
  rewrite (node_at_put_cases _ _ _ _ (node_at_absent_not_root _ _ Hn)).
  case_decide; subst; eauto 8.
Qed.

Lemma ensured_grown (dirs : list (list string)) (file : list string)
    (p : string) (w w' : OS.world) (r : result unit) :
  OS.resolve p ∈ dirs -> Shape.ensured p w r w' ->
  Shape.grown dirs file w w'.
Proof.
  intros Hin He. destruct r as [[]|e]; simpl in He.
  - destruct He as [_ [[_ ->] | [Hex ->]]]; [apply grown_refl|].
    apply grown_new_dir; [|exact Hin].
    unfold OS.path_exists in Hex.
    by destruct (OS.node_at w (OS.resolve p)).
  - destruct He as (-> & _). apply grown_refl.
Qed.

Lemma write_file_grown (dirs : list (list string)) (p data : string)
    (w : OS.world) :
  Shape.grown dirs (OS.resolve p) w
    (snd (OS.run (OS.write_file p data) w)).
Proof.
  rewrite run_write_file.
  destruct (OS.node_at w (OS.resolve p)) as [[|c]|] eqn:Hn; simpl.
  - apply grown_refl.
  - apply grown_file. by rewrite Hn.
  - destruct (OS.node_at w (removelast (OS.resolve p))) as [[|c]|]; simpl;
      [|apply grown_refl..].
    apply grown_file. by rewrite Hn.
Qed.

(** X8. Whatever its outcome, [store_data] leaves the home directory
    setting and every node of the file system as they were, but for
    these: the main folder and the survey folder, which it may create
    where nothing was, and the file, which it may write where no
    directory was. It removes nothing and never replaces a
    directory. *)
Theorem store_data_changes_only_its_nodes
    (json_dumps : DataStorage.file_dict -> string) (survey_dir : string)
    (x y z h : pyfloat) (ts sid smp : string)
    (vf re im : list pyfloat) (w : OS.world) :
  Shape.grown [Shape.main_node w; Shape.survey_node w survey_dir]
    (Shape.file_node w survey_dir x y z) w
    (snd (OS.run (DataStorage.store_data json_dumps survey_dir
                    x y z h ts sid smp vf re im) w)).
Proof.
  rewrite run_store_data.
  destruct (Shape.fits vf re im); [|apply grown_refl].
  destruct (run_check_main_folder_cases w) as (r & w1 & _ & He & Hh & ->).
  assert (Shape.grown [Shape.main_node w; Shape.survey_node w survey_dir]
            (Shape.file_node w survey_dir x y z) w w1) as G1.
  { eapply ensured_grown; [|exact He]. apply elem_of_cons. by left. }
  destruct r as [[]|e]; [|exact G1].
  rewrite run_check_survey_folder.
  pose proof (ensure_dir_ensured
                ((OS.home w +:+ "/gpr20_data/") +:+ "/" +:+ survey_dir) w1)
    as He2.
  destruct (if OS.path_exists _ w1 then (Ok tt, w1) else OS.mkdir _ w1)
    as [r2 w2].
  simpl in He2.
  assert (Shape.grown [Shape.main_node w; Shape.survey_node w survey_dir]
            (Shape.file_node w survey_dir x y z) w1 w2) as G2.
  { eapply ensured_grown; [|exact He2].
    apply elem_of_cons. right. apply elem_of_cons. by left. }
  destruct r2 as [[]|e]; [|exact (grown_trans _ _ _ _ _ G1 G2)].
  eapply grown_trans; [exact (grown_trans _ _ _ _ _ G1 G2)|].
  apply write_file_grown.
Qed.

(** ** Where the paths of [store_data] lead *)

Lemma split_append (sep : ascii) (a b : string) :
  Py.split sep (a +:+ String sep b) = Py.split sep a ++ Py.split sep b.
Proof.
  induction a as [|c a IH].
  - simpl. by rewrite Ascii.eqb_refl.
  - change (String c a +:+ String sep b) with (String c (a +:+ String sep b)).
    cbn [Py.split]. rewrite IH.
    destruct (Ascii.eqb c sep); [reflexivity|].
    pose proof (split_not_nil sep a) as Hne.
    by destruct (Py.split sep a).
Qed.

Lemma resolve_append (a b : string) :
  OS.resolve (a +:+ "/" +:+ b)
  = fold_left OS.enter (Py.split "/" b) (OS.resolve a).
Proof.
  unfold OS.resolve.
  change (a +:+ "/" +:+ b) with (a +:+ String "/" b).
  by rewrite split_append, fold_left_app.
Qed.

Lemma split_plain (s : string) :
  Shape.all_chars Shape.not_slash s = true -> Py.split "/" s = [s].
Proof.
  induction s as [|c s IH]; simpl; intros H; [reflexivity|].
  apply andb_prop in H as [Hc Hs]. unfold Shape.not_slash in Hc.
  apply negb_true_iff in Hc. by rewrite Hc, (IH Hs).
Qed.

Lemma enter_plain (cur : list string) (s : string) :
  Shape.plain_name s -> OS.enter cur s = cur ++ [s].
Proof.
  intros (_ & H1 & H2 & H3). unfold OS.enter.
  by repeat case_decide.
Qed.

Lemma resolve_child (a s : string) :
  Shape.plain_name s -> OS.resolve (a +:+ "/" +:+ s) = OS.resolve a ++ [s].
Proof.
  intros Hs. rewrite resolve_append, (split_plain s (proj1 Hs)). simpl.
  by apply enter_plain.
Qed.


Lemma all_chars_append (test : ascii -> bool) (a b : string) :
  Shape.all_chars test (a +:+ b)
  = Shape.all_chars test a && Shape.all_chars test b.
Proof.
  induction a as [|c a IH]; [reflexivity|].
  change (String c a +:+ b) with (String c (a +:+ b)).
  simpl. by rewrite IH, andb_assoc.
Qed.

Lemma digit_not_slash (c : ascii) :
  Py.is_digit c = true -> Shape.not_slash c = true.
Proof.
  destruct c as [[] [] [] [] [] [] [] []]; try reflexivity; discriminate.
Qed.

Lemma pretty_N_char_not_slash (d : N) :
  Shape.not_slash (pretty_N_char d) = true.
Proof. unfold pretty_N_char. by repeat case_match. Qed.

Lemma pretty_N_go_not_slash (n : N) (s : string) :
  Shape.all_chars Shape.not_slash s = true ->
  Shape.all_chars Shape.not_slash (pretty_N_go n s) = true.
Proof.
  revert s. induction (N.lt_wf_0 n) as [n _ IH]; intros s Hs.
  assert (n = 0 \/ 0 < n)%N as [->|Hpos] by lia.
  - by rewrite pretty_N_go_0.
  - rewrite pretty_N_go_step by done.
    apply IH; [by apply N.div_lt|].
    simpl. by rewrite pretty_N_char_not_slash.
Qed.

Lemma pretty_N_not_slash (n : N) :
  Shape.all_chars Shape.not_slash (pretty n) = true.
Proof.
  unfold pretty, pretty_N. case_decide; [reflexivity|].
  by apply pretty_N_go_not_slash.
Qed.

Lemma zeros_not_slash (n : nat) :
  Shape.all_chars Shape.not_slash (Format.zeros n) = true.
Proof. induction n as [|n IH]; [reflexivity | exact IH]. Qed.

Lemma format_06_2f_not_slash (x : pyfloat) :
  Shape.all_chars Shape.not_slash (Format.format_06_2f x) = true.
Proof.
  destruct (format_06_2f_text x) as (sign & body & -> & Hsign & Hbody & _).
  rewrite !all_chars_append, zeros_not_slash.
  assert (Shape.all_chars Shape.not_slash sign = true) as ->.
  { by destruct Hsign as [-> | ->]. }
  assert (Shape.all_chars Shape.not_slash body = true) as ->; [|reflexivity].
  destruct (Spec.is_number x).
  - destruct Hbody as (n & d1 & d2 & -> & H1 & H2).
    rewrite !all_chars_append, pretty_N_not_slash. simpl.
    by rewrite (digit_not_slash _ H1), (digit_not_slash _ H2).
  - by destruct Hbody as [-> | ->].
Qed.

(** The file name is one path component. *)
Lemma file_name_plain (x y z : pyfloat) :
  Shape.plain_name (DataStorage.file_name x y z).
Proof.
  unfold Shape.plain_name, DataStorage.file_name. split.
  - rewrite !all_chars_append, !format_06_2f_not_slash. reflexivity.
  - destruct (format_06_2f_text x) as (_ & _ & _ & _ & _ & Hlen).
    destruct (Format.format_06_2f x) as [|c1 [|c2 s]];
      [simpl in Hlen; lia | simpl in Hlen; lia|].
    repeat split; discriminate.
Qed.

Lemma digit_name_char (c : ascii) :
  Py.is_digit c = true -> Portable.name_char c = true.
Proof.
  destruct c as [[] [] [] [] [] [] [] []]; try reflexivity; discriminate.
Qed.

Lemma pretty_N_char_name_char (d : N) :
  Portable.name_char (pretty_N_char d) = true.
Proof. unfold pretty_N_char. by repeat case_match. Qed.

Lemma pretty_N_go_name_chars (n : N) (s : string) :
  Shape.all_chars Portable.name_char s = true ->
  Shape.all_chars Portable.name_char (pretty_N_go n s) = true.
Proof.
  revert s. induction (N.lt_wf_0 n) as [n _ IH]; intros s Hs.
  assert (n = 0 \/ 0 < n)%N as [->|Hpos] by lia.
  - by rewrite pretty_N_go_0.
  - rewrite pretty_N_go_step by done.
    apply IH; [by apply N.div_lt|].
    cbn [Shape.all_chars]. by rewrite pretty_N_char_name_char.
Qed.

Lemma pretty_N_name_chars (n : N) :
  Shape.all_chars Portable.name_char (pretty n) = true.
Proof.
  unfold pretty, pretty_N. case_decide; [reflexivity|].
  by apply pretty_N_go_name_chars.
Qed.

Lemma zeros_name_chars (n : nat) :
  Shape.all_chars Portable.name_char (Format.zeros n) = true.
Proof. induction n as [|n IH]; [reflexivity | exact IH]. Qed.

Lemma format_06_2f_name_chars (x : pyfloat) :
  Shape.all_chars Portable.name_char (Format.format_06_2f x) = true.
Proof.
  destruct (format_06_2f_text x) as (sign & body & -> & Hsign & Hbody & _).
  rewrite !all_chars_append, zeros_name_chars.
  assert (Shape.all_chars Portable.name_char sign = true) as ->.
  { by destruct Hsign as [-> | ->]. }
  assert (Shape.all_chars Portable.name_char body = true) as ->;
    [|reflexivity].
  destruct (Spec.is_number x).
  - destruct Hbody as (n & d1 & d2 & -> & H1 & H2).
    rewrite !all_chars_append, pretty_N_name_chars.
    cbn [Shape.all_chars].
    by rewrite (digit_name_char _ H1), (digit_name_char _ H2).
  - by destruct Hbody as [-> | ->].
Qed.

(** X17. Whatever the coordinates, the file name is one path
    component of portable characters: ASCII only, no NUL and no slash
    in it, never empty and never a dot name; it starts with [X], ends
    with [.json] and has at least 28 characters. *)
Theorem file_name_one_component (x y z : pyfloat) :
  Shape.plain_name (DataStorage.file_name x y z)
  /\ Shape.all_chars Portable.name_char (DataStorage.file_name x y z) = true
  /\ 28 <= String.length (DataStorage.file_name x y z)
  /\ exists middle,
       DataStorage.file_name x y z = "X" +:+ middle +:+ ".json".
Proof.
  split; [apply file_name_plain|]. unfold DataStorage.file_name.
  split; [by rewrite !all_chars_append, !format_06_2f_name_chars|].
  split.
  - rewrite !string_length_append.
    pose proof (format_06_2f_length x). pose proof (format_06_2f_length y).
    pose proof (format_06_2f_length z). simpl String.length. lia.
  - exists (Format.format_06_2f x +:+ "_Y" +:+ Format.format_06_2f y +:+
            "_Z" +:+ Format.format_06_2f z).
    by rewrite !string_append_assoc.
Qed.








(** A successful [store_data], stage by stage. *)
Lemma store_data_ok_stages
    (json_dumps : DataStorage.file_dict -> string) (survey_dir : string)
    (x y z h : pyfloat) (ts sid smp : string)
    (vf re im : list pyfloat) (w w' : OS.world) :
  OS.run (DataStorage.store_data json_dumps survey_dir x y z h ts sid smp
            vf re im) w = (Ok tt, w') ->
  Shape.fits vf re im = true
  /\ OS.home w' = OS.home w
  /\ OS.path_exists (OS.home w +:+ "/gpr20_data/") w' = true
  /\ OS.path_exists ((OS.home w +:+ "/gpr20_data/") +:+ "/" +:+ survey_dir) w'
     = true
  /\ OS.node_at w' (Shape.file_node w survey_dir x y z)
     = Some (OS.File (json_dumps (Shape.record x y z h ts sid smp vf re im)))
  /\ Shape.file_node w survey_dir x y z <> [].
Proof.
  rewrite run_store_data.
  destruct (Shape.fits vf re im); [|discriminate].
  destruct (run_check_main_folder_cases w) as (r & w1 & _ & He1 & Hh1 & ->).
  destruct r as [[]|e]; [|discriminate]. simpl in He1.
  destruct He1 as [Hex1 _].
  rewrite run_check_survey_folder.
  pose proof (ensure_dir_ensured
                ((OS.home w +:+ "/gpr20_data/") +:+ "/" +:+ survey_dir) w1)
    as He2.
  destruct (if OS.path_exists _ w1 then (Ok tt, w1) else OS.mkdir _ w1)
    as [r2 w2].
  simpl in He2. destruct r2 as [[]|e]; [|discriminate].
  destruct He2 as [Hex2 Hw2].
  assert (OS.home w2 = OS.home w1
          /\ OS.path_exists (OS.home w +:+ "/gpr20_data/") w2 = true)
    as [Hh2 Hex1'].
  { destruct Hw2 as [[_ ->] | [Hn ->]]; [done|]. split; [reflexivity|].
    apply path_exists_put; [|exact Hex1].
    unfold OS.path_exists in Hn. intros Hk. by rewrite Hk in Hn. }
  rewrite run_write_file. fold (Shape.file_node w survey_dir x y z).
  set (kf := Shape.file_node w survey_dir x y z).
  set (data := json_dumps _).
  intros Hw.
  assert (w' = OS.put kf (OS.File data) w2
          /\ OS.node_at w2 kf <> Some OS.Dir) as [-> Hnd].
  { destruct (OS.node_at w2 kf) as [[|c]|]; [discriminate| |].
    - injection Hw as <-. split; [reflexivity | discriminate].
    - destruct (OS.node_at w2 (removelast kf)) as [[|c]|];
        [|discriminate..].
      injection Hw as <-. split; [reflexivity | discriminate]. }
  pose proof (node_at_absent_not_root _ _ Hnd) as Hk.
  split; [reflexivity|]. split; [simpl; congruence|].
  split; [by apply path_exists_put|].
  split; [by apply path_exists_put|].
  split; [by apply node_at_put | exact Hk].
Qed.

(** Storing once more under the same name, after a success. *)
Lemma store_data_again
    (json_dumps : DataStorage.file_dict -> string) (survey_dir : string)
    (x y z h : pyfloat) (ts sid smp : string) (vf re im : list pyfloat)
    (x' y' z' h' : pyfloat) (ts' sid' smp' : string)
    (vf' re' im' : list pyfloat) (w w1 : OS.world) :
  OS.run (DataStorage.store_data json_dumps survey_dir x y z h ts sid smp
            vf re im) w = (Ok tt, w1) ->
  Shape.fits vf' re' im' = true ->
  DataStorage.file_name x' y' z' = DataStorage.file_name x y z ->
  OS.run (DataStorage.store_data json_dumps survey_dir x' y' z' h'
            ts' sid' smp' vf' re' im') w1
  = (Ok tt,
     OS.put (Shape.file_node w survey_dir x y z)
       (OS.File (json_dumps
                   (Shape.record x' y' z' h' ts' sid' smp' vf' re' im')))
       w1).
Proof.
  intros (_ & Hh & Hm & Hs & Hf & _)%store_data_ok_stages Hfits Hname.
  rewrite run_store_data, Hfits, run_check_main_folder. cbv zeta.
  rewrite Hh, Hm, run_check_survey_folder, Hs, run_write_file, Hname.
  fold (Shape.file_node w survey_dir x y z). by rewrite Hf.
Qed.

(** X10. The last write wins. After a sample has been stored, storing
    another one whose coordinates format to the same file name, in the
    same survey folder, succeeds whenever its lists fit, and changes
    nothing but the file, which then holds the text of the second
    sample alone. *)
Theorem store_data_overwrites
    (json_dumps : DataStorage.file_dict -> string) (survey_dir : string)
    (x y z h : pyfloat) (ts sid smp : string) (vf re im : list pyfloat)
    (x' y' z' h' : pyfloat) (ts' sid' smp' : string)
    (vf' re' im' : list pyfloat) (w w1 : OS.world) :
  OS.run (DataStorage.store_data json_dumps survey_dir x y z h ts sid smp
            vf re im) w = (Ok tt, w1) ->
  Shape.fits vf' re' im' = true ->
  DataStorage.file_name x' y' z' = DataStorage.file_name x y z ->
  exists w2,
    OS.run (DataStorage.store_data json_dumps survey_dir x' y' z' h'
              ts' sid' smp' vf' re' im') w1 = (Ok tt, w2)
    /\ OS.node_at w2 (Shape.file_node w survey_dir x y z)
       = Some (OS.File (json_dumps
                 (Shape.record x' y' z' h' ts' sid' smp' vf' re' im')))
    /\ OS.home w2 = OS.home w1
    /\ forall k, k <> Shape.file_node w survey_dir x y z ->
                 OS.node_at w2 k = OS.node_at w1 k.
Proof.
  intros Hrun Hfits Hname. eexists. split.
  { exact (store_data_again _ _ _ _ _ _ _ _ _ _ _ _ _ _ _ _ _ _ _ _ _ _ _ _
             Hrun Hfits Hname). }
  apply store_data_ok_stages in Hrun as (_ & _ & _ & _ & _ & Hk).
  split; [by apply node_at_put|]. split; [reflexivity|].
  intros k Hne. apply node_at_put_ne. congruence.
Qed.

Lemma store_data_overwrites_witness :
  exists w2,
    OS.run (DataStorage.store_data Json.dumps "survey1"
              (Float64.literal "1.501") Sample.f2_25 Sample.f0_0 Sample.f3_1
              "t2" "s" "i2"
              [Float64.of_Z 4] [Float64.of_Z 5] [Float64.of_Z 6])
      (snd (OS.run (DataStorage.store_data Json.dumps "survey1"
                      Sample.f1_5 Sample.f2_25 Sample.f0_0 Sample.f3_1
                      "t" "s" "i"
                      [Float64.of_Z 1] [Float64.of_Z 2] [Float64.of_Z 3])
              Sample.fresh_home))
    = (Ok tt, w2)
    /\ OS.node_at w2
         (Shape.file_node Sample.fresh_home "survey1"
            Sample.f1_5 Sample.f2_25 Sample.f0_0)
       = Some (OS.File (Json.dumps
                 (Shape.record (Float64.literal "1.501") Sample.f2_25
                    Sample.f0_0 Sample.f3_1 "t2" "s" "i2"
                    [Float64.of_Z 4] [Float64.of_Z 5] [Float64.of_Z 6])))
    /\ OS.home w2
       = OS.home
           (snd (OS.run (DataStorage.store_data Json.dumps "survey1"
                           Sample.f1_5 Sample.f2_25 Sample.f0_0 Sample.f3_1
                           "t" "s" "i"
                           [Float64.of_Z 1] [Float64.of_Z 2] [Float64.of_Z 3])
                   Sample.fresh_home))
    /\ forall k,
         k <> Shape.file_node Sample.fresh_home "survey1"
                Sample.f1_5 Sample.f2_25 Sample.f0_0 ->
         OS.node_at w2 k
         = OS.node_at
             (snd (OS.run (DataStorage.store_data Json.dumps "survey1"
                             Sample.f1_5 Sample.f2_25 Sample.f0_0
                             Sample.f3_1 "t" "s" "i"
                             [Float64.of_Z 1] [Float64.of_Z 2]
                             [Float64.of_Z 3])
                     Sample.fresh_home)) k.
Proof.
  apply (store_data_overwrites Json.dumps "survey1"
           Sample.f1_5 Sample.f2_25 Sample.f0_0 Sample.f3_1 "t" "s" "i"
           [Float64.of_Z 1] [Float64.of_Z 2] [Float64.of_Z 3]
           (Float64.literal "1.501") Sample.f2_25 Sample.f0_0 Sample.f3_1
           "t2" "s" "i2"
           [Float64.of_Z 4] [Float64.of_Z 5] [Float64.of_Z 6]
           Sample.fresh_home).
  - vm_compute. reflexivity.
  - reflexivity.
  - vm_compute. reflexivity.
Defined.

(** X11. Storing is idempotent: a [store_data] that has succeeded,
    repeated with the same arguments, succeeds again and leaves the
    file system exactly as the first call left it. *)
Theorem store_data_idempotent
    (json_dumps : DataStorage.file_dict -> string) (survey_dir : string)
    (x y z h : pyfloat) (ts sid smp : string) (vf re im : list pyfloat)
    (w w1 : OS.world) :
  OS.run (DataStorage.store_data json_dumps survey_dir x y z h ts sid smp
            vf re im) w = (Ok tt, w1) ->
  OS.run (DataStorage.store_data json_dumps survey_dir x y z h ts sid smp
            vf re im) w1 = (Ok tt, w1).
Proof.
  intros Hrun.
  pose proof (store_data_ok_stages _ _ _ _ _ _ _ _ _ _ _ _ _ _ Hrun)
    as (Hfits & _ & _ & _ & Hf & Hk).
  rewrite (store_data_again _ _ _ _ _ _ _ _ _ _ _ _ _ _ _ _ _ _ _ _ _ _ _ _
             Hrun Hfits eq_refl).
  by rewrite put_same.
Qed.

Lemma store_data_idempotent_witness :
  OS.run (DataStorage.store_data Json.dumps "survey1"
            Sample.f1_5 Sample.f2_25 Sample.f0_0 Sample.f3_1 "t" "s" "i"
            [Float64.of_Z 1] [Float64.of_Z 2] [Float64.of_Z 3])
    (snd (OS.run (DataStorage.store_data Json.dumps "survey1"
                    Sample.f1_5 Sample.f2_25 Sample.f0_0 Sample.f3_1
                    "t" "s" "i"
                    [Float64.of_Z 1] [Float64.of_Z 2] [Float64.of_Z 3])
            Sample.fresh_home))
  = (Ok tt,
     snd (OS.run (DataStorage.store_data Json.dumps "survey1"
                    Sample.f1_5 Sample.f2_25 Sample.f0_0 Sample.f3_1
                    "t" "s" "i"
                    [Float64.of_Z 1] [Float64.of_Z 2] [Float64.of_Z 3])
            Sample.fresh_home)).
Proof.
  apply (store_data_idempotent Json.dumps "survey1"
           Sample.f1_5 Sample.f2_25 Sample.f0_0 Sample.f3_1 "t" "s" "i"
           [Float64.of_Z 1] [Float64.of_Z 2] [Float64.of_Z 3]
           Sample.fresh_home).
  vm_compute. reflexivity.
Defined.

(** X12. The survey folder is checked with [os.path.exists], which a
    regular file passes: for a portable home path and survey name,
    when the main folder is a directory and the survey path is a
    regular file, [store_data] creates nothing, its [open] fails with
    [NotADirectoryError], and the file system is as it was. *)
Theorem store_data_survey_path_is_file
    (json_dumps : DataStorage.file_dict -> string) (survey_dir : string)
    (x y z h : pyfloat) (ts sid smp : string) (vf re im : list pyfloat)
    (w : OS.world) (c : string) :
  Shape.fits vf re im = true ->
  Portable.file_path w survey_dir x y z ->
  OS.node_at w (Shape.main_node w) = Some OS.Dir ->
  OS.node_at w (Shape.survey_node w survey_dir) = Some (OS.File c) ->
  OS.node_at w (Shape.file_node w survey_dir x y z) = None ->
  OS.run (DataStorage.store_data json_dumps survey_dir x y z h ts sid smp
            vf re im) w
  = (Raise NotADirectoryError, w).
Proof.
  intros Hfits _ Hmain Hsurvey Hfile.
  assert (OS.path_exists (OS.home w +:+ "/gpr20_data/") w = true) as Hex.
  { unfold OS.path_exists. fold (Shape.main_node w). by rewrite Hmain. }
  rewrite run_store_data, Hfits, run_check_main_folder. cbv zeta.
  rewrite Hex, run_check_survey_folder.
  unfold OS.path_exists at 1. fold (Shape.survey_node w survey_dir).
  rewrite Hsurvey, run_write_file.
  fold (Shape.file_node w survey_dir x y z). rewrite Hfile.
  replace (removelast (Shape.file_node w survey_dir x y z))
    with (Shape.survey_node w survey_dir).
  - by rewrite Hsurvey.
  - unfold Shape.file_node.
    rewrite (resolve_child _ _ (file_name_plain x y z)), removelast_last.
    reflexivity.
Qed.

Lemma store_data_survey_path_is_file_witness :
  OS.run (DataStorage.store_data Json.dumps "survey1"
            Sample.f1_5 Sample.f2_25 Sample.f0_0 Sample.f3_1 "t" "s" "i"
            [Float64.of_Z 1] [Float64.of_Z 2] [Float64.of_Z 3])
    (OS.put ["home"; "gpr20"; "gpr20_data"; "survey1"] (OS.File "notes")
       Sample.with_main_folder)
  = (Raise NotADirectoryError,
     OS.put ["home"; "gpr20"; "gpr20_data"; "survey1"] (OS.File "notes")
       Sample.with_main_folder).
Proof.
  apply (store_data_survey_path_is_file Json.dumps "survey1"
           Sample.f1_5 Sample.f2_25 Sample.f0_0 Sample.f3_1 "t" "s" "i"
           [Float64.of_Z 1] [Float64.of_Z 2] [Float64.of_Z 3]
           (OS.put ["home"; "gpr20"; "gpr20_data"; "survey1"]
              (OS.File "notes") Sample.with_main_folder)
           "notes").
  - reflexivity.
  - split; [portable_survey_path ["home"; "gpr20"]|].
    split; vm_compute; lia.
  - vm_compute. reflexivity.
  - vm_compute. reflexivity.
  - vm_compute. reflexivity.
Defined.




(** ** The pipeline *)

Lemma triples_lookup (vf re im : list pyfloat) (i : nat)
    (d : DataStorage.data_dict) :
  Spec.triples vf re im !! i = Some d ->
  vf !! i = Some (DataStorage.freq_value d)
  /\ re !! i = Some (DataStorage.real_value d)
  /\ im !! i = Some (DataStorage.imaginary_value d).
Proof.
  revert re im i.
  induction vf as [|f vf IH]; intros [|r re] [|m im] i; try discriminate.
  destruct i as [|i]; simpl.
  - by intros [= <-].
  - apply IH.
Qed.

(** With both responses decoded, the pipeline is the storage step on
    the frequencies and, twice, the even positions of the trace. *)
Lemma process_data_decoded
    (float : string -> option pyfloat)
    (json_dumps : DataStorage.file_dict -> string) (survey_dir : string)
    (x y z h : pyfloat) (ts sid smp : string) (vna_freq vna_trace : string)
    (vf vt : list pyfloat) :
  DataParsing.parse_vna_frequency float vna_freq = Ok vf ->
  DataParsing.parse_vna_frequency float vna_trace = Ok vt ->
  DataProcessing.process_data float json_dumps survey_dir x y z h ts sid smp
    vna_freq vna_trace
  = DataStorage.store_data json_dumps survey_dir x y z h ts sid smp
      vf (Spec.even_positions vt) (Spec.even_positions vt).
Proof.
  intros Hf Ht. unfold DataProcessing.process_data.
  by rewrite Hf, parse_vna_trace_eq, Ht.
Qed.

Lemma process_data_ok
    (float : string -> option pyfloat)
    (json_dumps : DataStorage.file_dict -> string) (survey_dir : string)
    (x y z h : pyfloat) (ts sid smp : string) (vna_freq vna_trace : string)
    (w w' : OS.world) :
  OS.run (DataProcessing.process_data float json_dumps survey_dir
            x y z h ts sid smp vna_freq vna_trace) w = (Ok tt, w') ->
  exists vf vt,
    DataParsing.parse_vna_frequency float vna_freq = Ok vf
    /\ DataParsing.parse_vna_frequency float vna_trace = Ok vt
    /\ length vf <= (length vt + 1) / 2
    /\ OS.node_at w' (Shape.file_node w survey_dir x y z)
       = Some (OS.File (json_dumps
                 (Shape.record x y z h ts sid smp vf
                    (Spec.even_positions vt) (Spec.even_positions vt))))
    /\ length (Spec.triples vf (Spec.even_positions vt)
                 (Spec.even_positions vt)) = length vf
    /\ forall i d,
         Spec.triples vf (Spec.even_positions vt) (Spec.even_positions vt)
           !! i = Some d ->
         vf !! i = Some (DataStorage.freq_value d)
         /\ vt !! (2 * i) = Some (DataStorage.real_value d)
         /\ DataStorage.imaginary_value d = DataStorage.real_value d.
Proof.
  intros Hrun.
  destruct (DataParsing.parse_vna_frequency float vna_freq) as [vf|e] eqn:Hf.
  2:{ unfold DataProcessing.process_data in Hrun. rewrite Hf in Hrun.
      discriminate. }
  destruct (DataParsing.parse_vna_frequency float vna_trace) as [vt|e] eqn:Ht.
  2:{ unfold DataProcessing.process_data in Hrun.
      rewrite Hf, parse_vna_trace_eq, Ht in Hrun. discriminate. }
  rewrite (process_data_decoded _ _ _ _ _ _ _ _ _ _ _ _ _ _ Hf Ht) in Hrun.
  apply store_data_ok_stages in Hrun as (Hfits & _ & _ & _ & Hnode & _).
  unfold Shape.fits in Hfits. apply andb_prop in Hfits as [Hfits _].
  apply Nat.leb_le in Hfits. rewrite even_positions_length in Hfits.
  exists vf, vt. split; [reflexivity|]. split; [reflexivity|].
  split; [exact Hfits|]. split; [exact Hnode|].
  split.
  { rewrite triples_length, even_positions_length. lia. }
  intros i d (Hi & Hr & Hm)%triples_lookup.
  rewrite even_positions_lookup in Hr, Hm.
  split; [exact Hi|]. split; [exact Hr|]. congruence.
Qed.

(** X14. When [process_data] succeeds, both responses decoded, and
    the file of the sample holds the record with one triple for each
    frequency: triple [i] has frequency [i], and both its real and its
    imaginary value are value [2 * i] of the decoded trace. The values
    at the odd positions of the trace are in no triple. *)
Theorem process_data_stored_record
    (float : string -> option pyfloat)
    (json_dumps : DataStorage.file_dict -> string) (survey_dir : string)
    (x y z h : pyfloat) (ts sid smp : string) (vna_freq vna_trace : string)
    (w w' : OS.world) :
  OS.run (DataProcessing.process_data float json_dumps survey_dir
            x y z h ts sid smp vna_freq vna_trace) w = (Ok tt, w') ->
  exists vf vt,
    DataParsing.parse_vna_frequency float vna_freq = Ok vf
    /\ DataParsing.parse_vna_frequency float vna_trace = Ok vt
    /\ length vf <= (length vt + 1) / 2
    /\ OS.node_at w' (Shape.file_node w survey_dir x y z)
       = Some (OS.File (json_dumps
                 (Shape.record x y z h ts sid smp vf
                    (Spec.even_positions vt) (Spec.even_positions vt))))
    /\ length (Spec.triples vf (Spec.even_positions vt)
                 (Spec.even_positions vt)) = length vf
    /\ forall i d,
         Spec.triples vf (Spec.even_positions vt) (Spec.even_positions vt)
           !! i = Some d ->
         vf !! i = Some (DataStorage.freq_value d)
         /\ vt !! (2 * i) = Some (DataStorage.real_value d)
         /\ DataStorage.imaginary_value d = DataStorage.real_value d.
Proof. apply process_data_ok. Qed.

Lemma process_data_stored_record_witness :
  exists vf vt,
    DataParsing.parse_vna_frequency Float64.of_literal "#01.0,2.0," = Ok vf
    /\ DataParsing.parse_vna_frequency Float64.of_literal
         "#2163.0,4.0,5.0,6.0," = Ok vt
    /\ length vf <= (length vt + 1) / 2
    /\ OS.node_at
         (snd (OS.run (DataProcessing.process_data Float64.of_literal
                         Json.dumps "survey1"
                         Sample.f1_5 Sample.f2_25 Sample.f0_0 Sample.f3_1
                         "t" "s" "i" "#01.0,2.0," "#2163.0,4.0,5.0,6.0,")
                 Sample.fresh_home))
         (Shape.file_node Sample.fresh_home "survey1"
            Sample.f1_5 Sample.f2_25 Sample.f0_0)
       = Some (OS.File (Json.dumps
                 (Shape.record Sample.f1_5 Sample.f2_25 Sample.f0_0
                    Sample.f3_1 "t" "s" "i" vf
                    (Spec.even_positions vt) (Spec.even_positions vt))))
    /\ length (Spec.triples vf (Spec.even_positions vt)
                 (Spec.even_positions vt)) = length vf
    /\ forall i d,
         Spec.triples vf (Spec.even_positions vt) (Spec.even_positions vt)
           !! i = Some d ->
         vf !! i = Some (DataStorage.freq_value d)
         /\ vt !! (2 * i) = Some (DataStorage.real_value d)
         /\ DataStorage.imaginary_value d = DataStorage.real_value d.
Proof.
  apply (process_data_stored_record Float64.of_literal Json.dumps "survey1"
           Sample.f1_5 Sample.f2_25 Sample.f0_0 Sample.f3_1 "t" "s" "i"
           "#01.0,2.0," "#2163.0,4.0,5.0,6.0," Sample.fresh_home).
  vm_compute. reflexivity.
Defined.

(** X15. When both responses decode but the frequencies outnumber
    half the trace values (rounded up), [process_data] fails with
    [IndexError] and leaves the file system as it was. *)
Theorem process_data_short_trace
    (float : string -> option pyfloat)
    (json_dumps : DataStorage.file_dict -> string) (survey_dir : string)
    (x y z h : pyfloat) (ts sid smp : string) (vna_freq vna_trace : string)
    (vf vt : list pyfloat) (w : OS.world) :
  DataParsing.parse_vna_frequency float vna_freq = Ok vf ->
  DataParsing.parse_vna_frequency float vna_trace = Ok vt ->
  (length vt + 1) / 2 < length vf ->
  OS.run (DataProcessing.process_data float json_dumps survey_dir
            x y z h ts sid smp vna_freq vna_trace) w
  = (Raise IndexError, w).
Proof.
  intros Hf Ht Hlen.
  rewrite (process_data_decoded _ _ _ _ _ _ _ _ _ _ _ _ _ _ Hf Ht).
  rewrite run_store_data. unfold Shape.fits.
  rewrite even_positions_length.
  destruct (Nat.leb_spec (length vf) ((length vt + 1) / 2)); [lia|].
  reflexivity.
Qed.

Lemma process_data_short_trace_witness :
  OS.run (DataProcessing.process_data Float64.of_literal Json.dumps
            "survey1"
            Sample.f1_5 Sample.f2_25 Sample.f0_0 Sample.f3_1 "t" "s" "i"
            "#01.0,2.0,3.0," "#2161.0,2.0,3.0,4.0,") Sample.fresh_home
  = (Raise IndexError, Sample.fresh_home).
Proof.
  apply (process_data_short_trace Float64.of_literal Json.dumps "survey1"
           Sample.f1_5 Sample.f2_25 Sample.f0_0 Sample.f3_1 "t" "s" "i"
           "#01.0,2.0,3.0," "#2161.0,2.0,3.0,4.0,"
           [Float64.of_Z 1; Float64.of_Z 2; Float64.of_Z 3]
           [Float64.of_Z 1; Float64.of_Z 2; Float64.of_Z 3; Float64.of_Z 4]).
  - vm_compute. reflexivity.
  - vm_compute. reflexivity.
  - vm_compute. lia.
Defined.

(** X16. The service handler answers with the empty response only
    after [process_data] has succeeded on the fields of the request:
    both responses of the request decoded and the file of the sample
    holds the record. An exception of [process_data] is the handler's
    own: nothing handles it, and no response is returned. *)
Theorem store_data_handler_response
    (float : string -> option pyfloat)
    (json_dumps : DataStorage.file_dict -> string)
    (srv : DataNode.ProcessingStoreData) (w : OS.world) :
  match OS.run (DataNode.__store_data_handler float json_dumps srv) w with
  | (Ok response, w') =>
      OS.run (DataProcessing.process_data float json_dumps
                (DataNode.survey_dir srv)
                (DataNode.x_coord srv) (DataNode.y_coord srv)
                (DataNode.z_coord srv) (DataNode.antennae_height srv)
                (DataNode.timestamp srv) (DataNode.survey_id srv)
                (DataNode.sample_id srv)
                (DataNode.vna_freq srv) (DataNode.vna_trace srv)) w
      = (Ok tt, w')
      /\ exists vf vt,
           DataParsing.parse_vna_frequency float (DataNode.vna_freq srv)
           = Ok vf
           /\ DataParsing.parse_vna_frequency float (DataNode.vna_trace srv)
              = Ok vt
           /\ OS.node_at w'
                (Shape.file_node w (DataNode.survey_dir srv)
                   (DataNode.x_coord srv) (DataNode.y_coord srv)
                   (DataNode.z_coord srv))
              = Some (OS.File (json_dumps
                        (Shape.record
                           (DataNode.x_coord srv) (DataNode.y_coord srv)
                           (DataNode.z_coord srv)
                           (DataNode.antennae_height srv)
                           (DataNode.timestamp srv) (DataNode.survey_id srv)
                           (DataNode.sample_id srv) vf
                           (Spec.even_positions vt)
                           (Spec.even_positions vt))))
  | (Raise e, w') =>
      OS.run (DataProcessing.process_data float json_dumps
                (DataNode.survey_dir srv)
                (DataNode.x_coord srv) (DataNode.y_coord srv)
                (DataNode.z_coord srv) (DataNode.antennae_height srv)
                (DataNode.timestamp srv) (DataNode.survey_id srv)
                (DataNode.sample_id srv)
                (DataNode.vna_freq srv) (DataNode.vna_trace srv)) w
      = (Raise e, w')
  end.
Proof.
  unfold DataNode.__store_data_handler. rewrite run_bind.
  destruct (OS.run (DataProcessing.process_data _ _ _ _ _ _ _ _ _ _ _ _) w)
    as [[[]|e] w'] eqn:Hrun; simpl; [|reflexivity].
  split; [reflexivity|].
  destruct (process_data_ok _ _ _ _ _ _ _ _ _ _ _ _ _ _ Hrun)
    as (vf & vt & Hf & Ht & _ & Hnode & _).
  exists vf, vt. auto.
Qed.

(** X18. A [store_data] that fails with an exception of its loop,
    of [os.mkdir] or of [open] ([IndexError], [FileExistsError],
    [FileNotFoundError], [NotADirectoryError], [IsADirectoryError])
    has written nothing: every node is as before, but for the main
    folder and the survey folder, which may have been created where
    nothing was. No file is created, emptied or changed by such a
    failed call. (A failure of the write itself, after [open] has
    succeeded, raises none of these and is not covered.) *)
Theorem store_data_failure_writes_no_file
    (json_dumps : DataStorage.file_dict -> string) (survey_dir : string)
    (x y z h : pyfloat) (ts sid smp : string)
    (vf re im : list pyfloat) (w w' : OS.world) (e : exn) :
  OS.run (DataStorage.store_data json_dumps survey_dir x y z h ts sid smp
            vf re im) w = (Raise e, w') ->
  Portable.before_write e ->
  OS.home w' = OS.home w
  /\ forall k,
       OS.node_at w' k = OS.node_at w k
       \/ (OS.node_at w k = None
           /\ k ∈ [Shape.main_node w; Shape.survey_node w survey_dir]
           /\ OS.node_at w' k = Some OS.Dir).
Proof.
  intros Hrun _.
  assert (Shape.grown [Shape.main_node w; Shape.survey_node w survey_dir]
            [] w w') as [Hh Hg].
  { revert Hrun. rewrite run_store_data.
    destruct (Shape.fits vf re im);
      [|intros [= _ <-]; apply grown_refl].
    destruct (run_check_main_folder_cases w) as (r & w1 & _ & He & _ & ->).
    assert (Shape.grown [Shape.main_node w; Shape.survey_node w survey_dir]
              [] w w1) as G1.
    { eapply ensured_grown; [|exact He]. apply elem_of_cons. by left. }
    destruct r as [[]|e1]; [|by intros [= _ <-]].
    rewrite run_check_survey_folder.
    pose proof (ensure_dir_ensured
                  ((OS.home w +:+ "/gpr20_data/") +:+ "/" +:+ survey_dir) w1)
      as He2.
    destruct (if OS.path_exists _ w1 then (Ok tt, w1) else OS.mkdir _ w1)
      as [r2 w2].
    simpl in He2.
    assert (Shape.grown [Shape.main_node w; Shape.survey_node w survey_dir]
              [] w1 w2) as G2.
    { eapply ensured_grown; [|exact He2].
      apply elem_of_cons. right. apply elem_of_cons. by left. }
    pose proof (grown_trans _ _ _ _ _ G1 G2) as G.
    destruct r2 as [[]|e2]; [|by intros [= _ <-]].
    rewrite run_write_file.
    destruct (OS.node_at w2 _) as [[|c]|]; [by intros [= _ <-]|discriminate|].
    destruct (OS.node_at w2 _) as [[|c]|];
      [discriminate | by intros [= _ <-] | by intros [= _ <-]]. }
  split; [exact Hh|]. intros k.
  destruct (Hg k) as [E | [D | (-> & Hroot & _)]]; [by left | by right|].
  by destruct Hroot.
Qed.

Lemma store_data_failure_writes_no_file_witness :
  OS.home (OS.put (Shape.main_node Sample.fresh_home) OS.Dir
             Sample.fresh_home)
  = OS.home Sample.fresh_home
  /\ forall k,
       OS.node_at (OS.put (Shape.main_node Sample.fresh_home) OS.Dir
                     Sample.fresh_home) k
       = OS.node_at Sample.fresh_home k
       \/ (OS.node_at Sample.fresh_home k = None
           /\ k ∈ [Shape.main_node Sample.fresh_home;
                   Shape.survey_node Sample.fresh_home "day1/run2"]
           /\ OS.node_at (OS.put (Shape.main_node Sample.fresh_home) OS.Dir
                            Sample.fresh_home) k
              = Some OS.Dir).
Proof.
  apply (store_data_failure_writes_no_file Json.dumps "day1/run2"
           Sample.f1_5 Sample.f2_25 Sample.f0_0 Sample.f3_1 "t" "s" "i"
           [Float64.of_Z 1] [Float64.of_Z 2] [Float64.of_Z 3]
           Sample.fresh_home _ FileNotFoundError).
  - vm_compute. reflexivity.
  - right. right. by left.
Defined.
